(** * The window / framebuffer presentation layer of cpp_rasterizer

    A shallow embedding of
      - rasterizer_core/src/platform/Win32/platform_windows.cpp
        (WindowProc, Window::Window, ~Window, PollEvents, IsOpen, the
        accessors and Draw),
      - the class declaration platform/Win32/platform_windows.hpp,
      - the factory IWindow::Create (platform.cpp), and
      - the runtime loop of runtime/src/main.cpp.

    The C++ code talks to the Win32 API.  The calls it issues are recorded,
    with their arguments, in a trace; what the operating system answers is
    taken from an environment record [Env], over which every theorem is
    universally quantified.  Target: x64 Windows (LLP64), so [int] is a
    32-bit two's-complement integer and [size_t] has 64 bits. *)

From Stdlib Require Import ZArith Lia.
From stdpp Require Import base gmap strings list.

Local Open Scope Z_scope.

(** ** Machine integers *)

Module Int.

Definition INT_MIN : Z := - 2 ^ 31.
Definition INT_MAX : Z := 2 ^ 31 - 1.
Definition SIZE_MAX : Z := 2 ^ 64 - 1.

Definition in_range (z : Z) : bool := (INT_MIN <=? z) && (z <=? INT_MAX).

(** [int * int].  Signed overflow has no defined result in C++: [None]. *)
Definition mul (a b : Z) : option Z :=
  if in_range (a * b) then Some (a * b) else None.

(** Unary minus on [int]; [- INT_MIN] overflows. *)
Definition neg (a : Z) : option Z :=
  if in_range (- a) then Some (- a) else None.

(** The implicit conversion [int -> size_t]: reduction modulo 2^64. *)
Definition to_size_t (z : Z) : Z := z mod 2 ^ 64.

End Int.

(** ** Win32 data (Windows SDK declarations the code relies on) *)

Definition HWND := Z.
Definition HDC := Z.
Definition HINSTANCE := Z.
Definition LRESULT := Z.
Definition NULL : Z := 0.

Definition WM_DESTROY : Z := 2.
Definition WM_CLOSE : Z := 16.
Definition WM_QUIT : Z := 18.
Definition WM_KEYDOWN : Z := 256.
Definition WM_CHAR : Z := 258.
Definition PM_REMOVE : Z := 1.
Definition SW_SHOW : Z := 5.
Definition WS_OVERLAPPEDWINDOW : Z := 13565952.      (* 0x00CF0000 *)
Definition CW_USEDEFAULT : Z := - 2147483648.        (* (int)0x80000000 *)
Definition BI_RGB : Z := 0.
Definition DIB_RGB_COLORS : Z := 0.
Definition SRCCOPY : Z := 13369376.                  (* 0x00CC0020 *)
Definition sizeof_BITMAPINFOHEADER : Z := 40.

Record MSG := mkMSG {
  hwnd : HWND;
  message : Z;
  wParam : Z;
  lParam : Z
}.

Record BITMAPINFOHEADER := mkBITMAPINFOHEADER {
  biSize : Z;
  biWidth : Z;
  biHeight : Z;
  biPlanes : Z;
  biBitCount : Z;
  biCompression : Z;
  biSizeImage : Z;
  biXPelsPerMeter : Z;
  biYPelsPerMeter : Z;
  biClrUsed : Z;
  biClrImportant : Z
}.

Record BITMAPINFO := mkBITMAPINFO {
  bmiHeader : BITMAPINFOHEADER;
  bmiColors : Z                      (* RGBQUAD bmiColors[1] *)
}.

(** [BITMAPINFO m_bmi = {}]: every member zero. *)
Definition BITMAPINFO_zero : BITMAPINFO :=
  mkBITMAPINFO (mkBITMAPINFOHEADER 0 0 0 0 0 0 0 0 0 0 0) 0.

(** A Win32 entry point invoked by the program, with its arguments. *)
Inductive Call :=
| CGetModuleHandle
| CRegisterClass (lpszClassName : string) (hInstance : HINSTANCE)
| CCreateWindowEx (dwExStyle : Z) (lpClassName lpWindowName : string)
    (dwStyle X Y nWidth nHeight : Z) (hInstance : HINSTANCE)
| CShowWindow (hWnd : HWND) (nCmdShow : Z)
| CDestroyWindow (hWnd : HWND)
| CPeekMessage (hWnd : HWND) (wMsgFilterMin wMsgFilterMax wRemoveMsg : Z)
| CTranslateMessage (msg : MSG)
| CDispatchMessage (msg : MSG)
| CPostQuitMessage (nExitCode : Z)
| CDefWindowProc (hWnd : HWND) (uMsg wParam lParam : Z)
| CGetDC (hWnd : HWND)
| CStretchDIBits (hdc : HDC)
    (xDest yDest DestWidth DestHeight xSrc ySrc SrcWidth SrcHeight : Z)
    (lpBits : list Z) (lpbmi : BITMAPINFO) (iUsage rop : Z)
| CReleaseDC (hWnd : HWND) (hdc : HDC).

(** ** The world the program runs in *)

(** Address of a [std::string] object that belongs to the caller. *)
Definition loc := positive.

(** Address of a [Window] object on the heap ([this], the pointee of a
    [WindowPtr]). *)
Definition ptr := positive.

(** [struct WindowHandle { HWND handle {nullptr}; }] *)
Record WindowHandle := mkWindowHandle { handle : HWND }.

(** The data members of [Rasterizer::Windows::Window]. *)
Record Window := mkWindow {
  m_title : loc;                   (* const std::string&: an alias, not a copy *)
  m_width : Z;
  m_height : Z;
  m_is_open : bool;
  m_window_handle : WindowHandle;
  m_framebuffer : list Z;          (* std::vector<u32> *)
  m_bmi : BITMAPINFO
}.

Record World := mkWorld {
  strings : gmap loc string;   (* live std::string objects and their text *)
  objects : gmap ptr Window;   (* live Window objects *)
  queue : list MSG;            (* posted messages of the thread, oldest first *)
  trace : list Call            (* Win32 calls issued so far, in program order *)
}.

(** What the operating system and the allocator answer. *)
Record Env := mkEnv {
  os_hInstance : HINSTANCE;
  (* handle CreateWindowEx returns for a title and a size; NULL on failure *)
  os_CreateWindowEx : string -> Z -> Z -> HWND;
  os_GetDC : HWND -> HDC;
  (* messages TranslateMessage posts (character messages for key strokes) *)
  os_TranslateMessage : MSG -> list MSG;
  (* result of the default window procedure and the messages it posts *)
  os_DefWindowProc : HWND -> Z -> Z -> Z -> LRESULT * list MSG;
  (* whether operator new grants a block of the given number of bytes *)
  os_alloc : Z -> bool
}.

Inductive Exn := length_error | bad_alloc.

(** Result of running a piece of the program from a world. *)
Inductive Outcome (A : Type) :=
| Ok (a : A) (w : World)         (* normal return *)
| Throws (e : Exn) (w : World)   (* a C++ exception leaves the function *)
| Undefined (w : World)          (* undefined behaviour was reached *)
| OutOfFuel (w : World).         (* the loop bound of the model was hit *)
Arguments Ok {A} a w.
Arguments Throws {A} e w.
Arguments Undefined {A} w.
Arguments OutOfFuel {A} w.

Definition M (A : Type) : Type := World -> Outcome A.

Definition ret {A} (a : A) : M A := fun w => Ok a w.

Definition bind {A B} (c : M A) (k : A -> M B) : M B :=
  fun w =>
    match c w with
    | Ok a w' => k a w'
    | Throws e w' => Throws e w'
    | Undefined w' => Undefined w'
    | OutOfFuel w' => OutOfFuel w'
    end.

Notation "'do' x <- c ; k" := (bind c (fun x => k))
  (at level 10, x name, c at level 100, k at level 200).
Notation "'run' c ; k" := (bind c (fun _ => k))
  (at level 10, c at level 100, k at level 200).

Definition throw {A} (e : Exn) : M A := fun w => Throws e w.
Definition undefined {A} : M A := fun w => Undefined w.
Definition out_of_fuel {A} : M A := fun w => OutOfFuel w.

Definition log (c : Call) : M unit :=
  fun w => Ok tt (mkWorld (strings w) (objects w) (queue w) (trace w ++ [c])).

Definition post (ms : list MSG) : M unit :=
  fun w => Ok tt (mkWorld (strings w) (objects w) (queue w ++ ms) (trace w)).

(** Reading through a [const std::string&]; a dangling reference is
    undefined behaviour. *)
Definition deref (r : loc) : M string :=
  fun w => match strings w !! r with
           | Some s => Ok s w
           | None => Undefined w
           end.

(** Access to the members of the object [this] points to; a pointer to no
    live object is undefined behaviour. *)
Definition load (this : ptr) : M Window :=
  fun w => match objects w !! this with
           | Some o => Ok o w
           | None => Undefined w
           end.

Definition store (this : ptr) (o : Window) : M unit :=
  fun w => Ok tt (mkWorld (strings w) (<[this := o]> (objects w)) (queue w) (trace w)).

Definition set_is_open (b : bool) (o : Window) : Window :=
  mkWindow (m_title o) (m_width o) (m_height o) b (m_window_handle o)
           (m_framebuffer o) (m_bmi o).

Definition set_window_handle (h : WindowHandle) (o : Window) : Window :=
  mkWindow (m_title o) (m_width o) (m_height o) (m_is_open o) h
           (m_framebuffer o) (m_bmi o).

Definition set_framebuffer (fb : list Z) (o : Window) : Window :=
  mkWindow (m_title o) (m_width o) (m_height o) (m_is_open o)
           (m_window_handle o) fb (m_bmi o).

Definition set_bmi (b : BITMAPINFO) (o : Window) : Window :=
  mkWindow (m_title o) (m_width o) (m_height o) (m_is_open o)
           (m_window_handle o) (m_framebuffer o) b.

Definition set_biSize (v : Z) (b : BITMAPINFO) : BITMAPINFO :=
  let h := bmiHeader b in
  mkBITMAPINFO (mkBITMAPINFOHEADER v (biWidth h) (biHeight h) (biPlanes h)
    (biBitCount h) (biCompression h) (biSizeImage h) (biXPelsPerMeter h)
    (biYPelsPerMeter h) (biClrUsed h) (biClrImportant h)) (bmiColors b).

Definition set_biWidth (v : Z) (b : BITMAPINFO) : BITMAPINFO :=
  let h := bmiHeader b in
  mkBITMAPINFO (mkBITMAPINFOHEADER (biSize h) v (biHeight h) (biPlanes h)
    (biBitCount h) (biCompression h) (biSizeImage h) (biXPelsPerMeter h)
    (biYPelsPerMeter h) (biClrUsed h) (biClrImportant h)) (bmiColors b).

Definition set_biHeight (v : Z) (b : BITMAPINFO) : BITMAPINFO :=
  let h := bmiHeader b in
  mkBITMAPINFO (mkBITMAPINFOHEADER (biSize h) (biWidth h) v (biPlanes h)
    (biBitCount h) (biCompression h) (biSizeImage h) (biXPelsPerMeter h)
    (biYPelsPerMeter h) (biClrUsed h) (biClrImportant h)) (bmiColors b).

Definition set_biPlanes (v : Z) (b : BITMAPINFO) : BITMAPINFO :=
  let h := bmiHeader b in
  mkBITMAPINFO (mkBITMAPINFOHEADER (biSize h) (biWidth h) (biHeight h) v
    (biBitCount h) (biCompression h) (biSizeImage h) (biXPelsPerMeter h)
    (biYPelsPerMeter h) (biClrUsed h) (biClrImportant h)) (bmiColors b).

Definition set_biBitCount (v : Z) (b : BITMAPINFO) : BITMAPINFO :=
  let h := bmiHeader b in
  mkBITMAPINFO (mkBITMAPINFOHEADER (biSize h) (biWidth h) (biHeight h)
    (biPlanes h) v (biCompression h) (biSizeImage h) (biXPelsPerMeter h)
    (biYPelsPerMeter h) (biClrUsed h) (biClrImportant h)) (bmiColors b).

Definition set_biCompression (v : Z) (b : BITMAPINFO) : BITMAPINFO :=
  let h := bmiHeader b in
  mkBITMAPINFO (mkBITMAPINFOHEADER (biSize h) (biWidth h) (biHeight h)
    (biPlanes h) (biBitCount h) v (biSizeImage h) (biXPelsPerMeter h)
    (biYPelsPerMeter h) (biClrUsed h) (biClrImportant h)) (bmiColors b).

(** ** The Win32 entry points, as far as the program observes them *)

Module Win32.
Section WithEnv.

Variable env : Env.

Definition GetModuleHandle : M HINSTANCE :=
  run log CGetModuleHandle; ret (os_hInstance env).

(** [RegisterClass(&wc)]; the result is never inspected by the program. *)
Definition RegisterClass (lpszClassName : string) (hInstance : HINSTANCE)
  : M unit :=
  log (CRegisterClass lpszClassName hInstance).

Definition CreateWindowEx (dwExStyle : Z) (lpClassName lpWindowName : string)
    (dwStyle X Y nWidth nHeight : Z) (hInstance : HINSTANCE) : M HWND :=
  run log (CCreateWindowEx dwExStyle lpClassName lpWindowName dwStyle
             X Y nWidth nHeight hInstance);
  ret (os_CreateWindowEx env lpWindowName nWidth nHeight).

Definition ShowWindow (hWnd : HWND) (nCmdShow : Z) : M unit :=
  log (CShowWindow hWnd nCmdShow).

Definition DestroyWindow (hWnd : HWND) : M unit :=
  log (CDestroyWindow hWnd).

(** Which queued messages a [PeekMessage] call may retrieve: those of the
    window [hWnd] (of any window and of the thread when [hWnd] is NULL)
    within the filter range (no filtering when both bounds are 0). *)
Definition msg_selected (hWnd : HWND) (lo hi : Z) (m : MSG) : bool :=
  ((hWnd =? NULL) || (hwnd m =? hWnd))
  && (((lo =? 0) && (hi =? 0)) || ((lo <=? message m) && (message m <=? hi))).

Fixpoint take_first (p : MSG -> bool) (q : list MSG)
  : option (MSG * list MSG) :=
  match q with
  | [] => None
  | m :: q' =>
      if p m then Some (m, q')
      else match take_first p q' with
           | Some (x, r) => Some (x, m :: r)
           | None => None
           end
  end.

(** [PeekMessage] never waits: with no matching message it returns FALSE
    ([None]) at once.  With [PM_REMOVE] the message leaves the queue. *)
Definition PeekMessage (hWnd : HWND) (wMsgFilterMin wMsgFilterMax wRemoveMsg : Z)
  : M (option MSG) :=
  run log (CPeekMessage hWnd wMsgFilterMin wMsgFilterMax wRemoveMsg);
  fun w =>
    match take_first (msg_selected hWnd wMsgFilterMin wMsgFilterMax) (queue w) with
    | None => Ok None w
    | Some (m, rest) =>
        if Z.testbit wRemoveMsg 0
        then Ok (Some m) (mkWorld (strings w) (objects w) rest (trace w))
        else Ok (Some m) w
    end.

Definition TranslateMessage (msg : MSG) : M unit :=
  run log (CTranslateMessage msg); post (os_TranslateMessage env msg).

(** [PostQuitMessage] posts a thread message WM_QUIT carrying the exit code. *)
Definition PostQuitMessage (nExitCode : Z) : M unit :=
  run log (CPostQuitMessage nExitCode); post [mkMSG NULL WM_QUIT nExitCode 0].

Definition DefWindowProc (hWnd : HWND) (uMsg wParam lParam : Z) : M LRESULT :=
  run log (CDefWindowProc hWnd uMsg wParam lParam);
  run post (snd (os_DefWindowProc env hWnd uMsg wParam lParam));
  ret (fst (os_DefWindowProc env hWnd uMsg wParam lParam)).

(** [DispatchMessage] hands a window message to the window procedure of
    its window; every window of the thread belongs to the one class the
    program registers, whose procedure is [lpfnWndProc].  A thread
    message (no window) is dropped. *)
Definition DispatchMessage
    (lpfnWndProc : HWND -> Z -> Z -> Z -> M LRESULT) (msg : MSG) : M LRESULT :=
  run log (CDispatchMessage msg);
  if hwnd msg =? NULL then ret 0
  else lpfnWndProc (hwnd msg) (message msg) (wParam msg) (lParam msg).

Definition GetDC (hWnd : HWND) : M HDC :=
  run log (CGetDC hWnd); ret (os_GetDC env hWnd).

(** [lpBits] is a pointer to const: the call reads the pixels, which the
    trace records as they are at the time of the call. *)
Definition StretchDIBits (hdc : HDC)
    (xDest yDest DestWidth DestHeight xSrc ySrc SrcWidth SrcHeight : Z)
    (lpBits : list Z) (lpbmi : BITMAPINFO) (iUsage rop : Z) : M unit :=
  log (CStretchDIBits hdc xDest yDest DestWidth DestHeight
         xSrc ySrc SrcWidth SrcHeight lpBits lpbmi iUsage rop).

Definition ReleaseDC (hWnd : HWND) (hdc : HDC) : M unit :=
  log (CReleaseDC hWnd hdc).

End WithEnv.
End Win32.

(** ** The C++ library pieces the constructor and the factory use *)

Module Std.
Section WithEnv.

Variable env : Env.

Definition sizeof_u32 : Z := 4.

(** [std::vector<u32>::max_size()] *)
Definition vector_max_size : Z := Int.SIZE_MAX / sizeof_u32.

(** [v.resize(n, val)] for a [size_t] [n]: shrink to the first [n]
    elements or append copies of [val]; [length_error] beyond max_size,
    [bad_alloc] when the storage cannot be obtained. *)
Definition vector_resize (v : list Z) (n : Z) (val : Z) : M (list Z) :=
  if vector_max_size <? n then throw length_error
  else if n <=? Z.of_nat (length v) then ret (take (Z.to_nat n) v)
  else if os_alloc env (sizeof_u32 * n)
       then ret (v ++ replicate (Z.to_nat n - length v) val)
       else throw bad_alloc.

(** A temporary [std::string] made from a literal, and its destruction at
    the end of the full expression. *)
Definition new_string (s : string) : M loc :=
  fun w =>
    let r := fresh (dom (strings w)) in
    Ok r (mkWorld (<[r := s]> (strings w)) (objects w) (queue w) (trace w)).

Definition delete_string (r : loc) : M unit :=
  fun w => Ok tt (mkWorld (delete r (strings w)) (objects w) (queue w) (trace w)).

End WithEnv.
End Std.

(** ** The program *)

Definition lift_int {A} (o : option A) : M A :=
  match o with
  | Some a => ret a
  | None => undefined
  end.

(** [this->field = ...] *)
Definition modify (this : ptr) (f : Window -> Window) : M unit :=
  do o <- load this; store this (f o).

(** [WindowPtr = SharedPtr<IWindow>]; [None] is the null pointer. *)
Definition WindowPtr := option ptr.

Module Rasterizer.

Module Windows.
Section WithEnv.

Variable env : Env.

(** platform_windows.cpp, lines 9-19. *)
Definition WindowProc (hwnd : HWND) (uMsg wParam lParam : Z) : M LRESULT :=
  if uMsg =? WM_DESTROY then
    run Win32.PostQuitMessage 0; ret 0
  else
    Win32.DefWindowProc env hwnd uMsg wParam lParam.

Definition CLASS_NAME : string := "Window Class".

(** [Window::Window], lines 21-68, run on the storage [this].  The first
    step is the member initializer list together with the default member
    initializers of the class declaration. *)
Definition Window_ctor (this : ptr) (title : loc) (width height : Z) : M unit :=
  run store this (mkWindow title width height false (mkWindowHandle NULL)
                    [] BITMAPINFO_zero);
  do hInstance <- Win32.GetModuleHandle env;
  run Win32.RegisterClass CLASS_NAME hInstance;
  do o <- load this;
  do lpWindowName <- deref (m_title o);
  do hInstance' <- Win32.GetModuleHandle env;
  do hwnd <- Win32.CreateWindowEx env 0 CLASS_NAME lpWindowName
               WS_OVERLAPPEDWINDOW CW_USEDEFAULT CW_USEDEFAULT
               (m_width o) (m_height o) hInstance';
  (* if (hwnd == NULL) { /* Handle error */ } : an empty statement *)
  run Win32.ShowWindow hwnd SW_SHOW;
  run modify this (set_window_handle (mkWindowHandle hwnd));
  run modify this
    (fun o => set_is_open (negb (handle (m_window_handle o) =? NULL)) o);
  do o <- load this;
  do n <- lift_int (Int.mul (m_width o) (m_height o));
  do fb <- Std.vector_resize env (m_framebuffer o) (Int.to_size_t n) 0xFF0000FF;
  run modify this (set_framebuffer fb);
  run modify this (fun o => set_bmi (set_biSize sizeof_BITMAPINFOHEADER (m_bmi o)) o);
  run modify this (fun o => set_bmi (set_biWidth (m_width o) (m_bmi o)) o);
  do o <- load this;
  do negated <- lift_int (Int.neg (m_height o));
  run modify this (fun o => set_bmi (set_biHeight negated (m_bmi o)) o);
  run modify this (fun o => set_bmi (set_biPlanes 1 (m_bmi o)) o);
  run modify this (fun o => set_bmi (set_biBitCount 32 (m_bmi o)) o);
  modify this (fun o => set_bmi (set_biCompression BI_RGB (m_bmi o)) o).

(** [Window::~Window], lines 70-76. *)
Definition Window_dtor (this : ptr) : M unit :=
  do o <- load this;
  if negb (handle (m_window_handle o) =? NULL)
  then Win32.DestroyWindow (handle (m_window_handle o))
  else ret tt.

(** [Window::PollEvents], lines 78-90.  [fuel] bounds the number of times
    the loop condition is evaluated. *)
Fixpoint PollEvents (fuel : nat) (this : ptr) : M unit :=
  match fuel with
  | O => out_of_fuel
  | S fuel' =>
      do got <- Win32.PeekMessage NULL 0 0 PM_REMOVE;
      match got with
      | None => ret tt
      | Some msg =>
          run (if message msg =? WM_QUIT
               then modify this (set_is_open false)
               else ret tt);
          run Win32.TranslateMessage env msg;
          do _ <- Win32.DispatchMessage WindowProc msg;
          PollEvents fuel' this
      end
  end.

Definition IsOpen (this : ptr) : M bool :=
  do o <- load this; ret (m_is_open o).

(** Returns the reference member itself. *)
Definition GetTitle (this : ptr) : M loc :=
  do o <- load this; ret (m_title o).

Definition GetWidth (this : ptr) : M Z :=
  do o <- load this; ret (m_width o).

Definition GetHeight (this : ptr) : M Z :=
  do o <- load this; ret (m_height o).

(** [return &m_window_handle;]: the handle structure the result points to. *)
Definition GetWindowHandle (this : ptr) : M WindowHandle :=
  do o <- load this; ret (m_window_handle o).

(** [Window::Draw], lines 117-126. *)
Definition Draw (this : ptr) : M unit :=
  do o <- load this;
  do hdc <- Win32.GetDC env (handle (m_window_handle o));
  run Win32.StretchDIBits hdc
        0 0 (m_width o) (m_height o)
        0 0 (m_width o) (m_height o)
        (m_framebuffer o) (m_bmi o) DIB_RGB_COLORS SRCCOPY;
  Win32.ReleaseDC (handle (m_window_handle o)) hdc.

End WithEnv.
End Windows.

Section WithEnv.

Variable env : Env.

Definition release_in (this : ptr) (w : World) : World :=
  mkWorld (strings w) (delete this (objects w)) (queue w) (trace w).

Definition release (this : ptr) : M unit :=
  fun w => Ok tt (release_in this w).

(** [MakeShared<Windows::Window>(title, width, height)] (Core.h): fresh
    storage, the constructor run on it, the storage given back when the
    constructor throws.  Obtaining the storage itself is taken to
    succeed. *)
Definition MakeShared_Window (title : loc) (width height : Z) : M WindowPtr :=
  fun w =>
    let this := fresh (dom (objects w)) in
    match Windows.Window_ctor env this title width height w with
    | Ok _ w' => Ok (Some this) w'
    | Throws e w' => Throws e (release_in this w')
    | Undefined w' => Undefined w'
    | OutOfFuel w' => OutOfFuel w'
    end.

(** [IWindow::Create] (platform.cpp, lines 10-18); [WIN32] tells whether
    the preprocessor symbol is defined for the build. *)
Definition Create (WIN32 : bool) (title : loc) (width height : Z) : M WindowPtr :=
  if WIN32 then MakeShared_Window title width height
  else ret None.

(** The last owner of the pointer goes away: destructor, then storage. *)
Definition WindowPtr_reset (window : WindowPtr) : M unit :=
  match window with
  | None => ret tt
  | Some this => run Windows.Window_dtor this; release this
  end.

(** [window->] on a null pointer is undefined. *)
Definition arrow {A} (window : WindowPtr) (method : ptr -> M A) : M A :=
  match window with
  | None => undefined
  | Some this => method this
  end.

End WithEnv.
End Rasterizer.

(** ** The runtime: main.cpp, lines 144-156 *)

Module Runtime.
Section WithEnv.

Variable env : Env.
Variable WIN32 : bool.
(** Bound given to each [PollEvents] call. *)
Variable poll_fuel : nat.

(** The [while (window->IsOpen())] loop.  [arrivals] lists, per iteration,
    the messages the system posts to the thread before that iteration
    polls; the loop is followed for as many iterations as it has entries. *)
Fixpoint main_loop (arrivals : list (list MSG)) (window : WindowPtr) : M unit :=
  do open <- Rasterizer.arrow window Rasterizer.Windows.IsOpen;
  if open : bool then
    match arrivals with
    | [] => out_of_fuel
    | ms :: arrivals' =>
        run post ms;
        run Rasterizer.arrow window (Rasterizer.Windows.PollEvents env poll_fuel);
        run Rasterizer.arrow window (Rasterizer.Windows.Draw env);
        main_loop arrivals' window
    end
  else ret tt.

Definition main (arrivals : list (list MSG)) : M Z :=
  do title <- Std.new_string "Rasterizer";
  do window <- Rasterizer.Create env WIN32 title 800 600;
  run Std.delete_string title;
  run main_loop arrivals window;
  run Rasterizer.WindowPtr_reset window;
  ret 0.

End WithEnv.
End Runtime.

(** * Definitions used to state and prove the properties *)

Import Rasterizer.Windows.

(** The world an outcome ends in. *)
Definition world_of {A} (r : Outcome A) : World :=
  match r with
  | Ok _ w => w
  | Throws _ w => w
  | Undefined w => w
  | OutOfFuel w => w
  end.

(** ** The constructor in closed form *)

Section ConstructorModel.

Variable env : Env.

(** The Win32 calls of the constructor, for the text [m_title] refers to. *)
Definition ctor_calls (text : string) (width height : Z) : list Call :=
  [ CGetModuleHandle;
    CRegisterClass CLASS_NAME (os_hInstance env);
    CGetModuleHandle;
    CCreateWindowEx 0 CLASS_NAME text WS_OVERLAPPEDWINDOW
      CW_USEDEFAULT CW_USEDEFAULT width height (os_hInstance env);
    CShowWindow (os_CreateWindowEx env text width height) SW_SHOW ].

(** The object when line 58 has run. *)
Definition opened (text : string) (title : loc) (width height : Z) : Window :=
  mkWindow title width height
    (negb (os_CreateWindowEx env text width height =? NULL))
    (mkWindowHandle (os_CreateWindowEx env text width height))
    [] BITMAPINFO_zero.

(** The object when line 63 has run. *)
Definition sized (text : string) (title : loc) (width height : Z) : Window :=
  mkWindow title width height
    (negb (os_CreateWindowEx env text width height =? NULL))
    (mkWindowHandle (os_CreateWindowEx env text width height))
    (replicate (Z.to_nat (width * height)) 0xFF0000FF)
    (mkBITMAPINFO (mkBITMAPINFOHEADER sizeof_BITMAPINFOHEADER width 0 0 0 0 0 0 0 0 0) 0).

(** The object the constructor leaves behind. *)
Definition constructed (text : string) (title : loc) (width height : Z) : Window :=
  mkWindow title width height
    (negb (os_CreateWindowEx env text width height =? NULL))
    (mkWindowHandle (os_CreateWindowEx env text width height))
    (replicate (Z.to_nat (width * height)) 0xFF0000FF)
    (mkBITMAPINFO
       (mkBITMAPINFOHEADER sizeof_BITMAPINFOHEADER width (- height) 1 32 BI_RGB
          0 0 0 0 0) 0).

Definition with_object (this : ptr) (o : Window) (calls : list Call) (w : World)
  : World :=
  mkWorld (strings w) (<[this := o]> (objects w)) (queue w) (trace w ++ calls).

End ConstructorModel.

(** ** One turn of the message loop *)

Section MessageLoopModel.

Variable env : Env.

Definition peek_call : Call := CPeekMessage NULL 0 0 PM_REMOVE.

Definition is_quit (m : MSG) : bool := message m =? WM_QUIT.

Definition quit_message (nExitCode : Z) : MSG := mkMSG NULL WM_QUIT nExitCode 0.

(** What [WindowProc], reached through [DispatchMessage], calls and posts
    for a retrieved message. *)
Definition handler_calls (m : MSG) : list Call :=
  if hwnd m =? NULL then []
  else if message m =? WM_DESTROY then [CPostQuitMessage 0]
  else [CDefWindowProc (hwnd m) (message m) (wParam m) (lParam m)].

Definition handler_posts (m : MSG) : list MSG :=
  if hwnd m =? NULL then []
  else if message m =? WM_DESTROY then [quit_message 0]
  else snd (os_DefWindowProc env (hwnd m) (message m) (wParam m) (lParam m)).

(** Everything the loop body issues, and everything that gets posted,
    while the retrieved message [m] is processed. *)
Definition iteration_calls (m : MSG) : list Call :=
  [peek_call; CTranslateMessage m; CDispatchMessage m] ++ handler_calls m.

Definition posted_by (m : MSG) : list MSG :=
  os_TranslateMessage env m ++ handler_posts m.

Definition close_if_quit (this : ptr) (o : Window) (m : MSG)
    (objs : gmap ptr Window) : gmap ptr Window :=
  if is_quit m then <[this := set_is_open false o]> objs else objs.

Definition after_message (this : ptr) (o : Window) (m : MSG) (q : list MSG)
    (w : World) : World :=
  mkWorld (strings w) (close_if_quit this o m (objects w))
          (q ++ posted_by m) (trace w ++ iteration_calls m).

End MessageLoopModel.

(** ** A whole [PollEvents] call *)

Section PollEventsModel.

Variable env : Env.

(** [polled this o w retrieved r]: the outcome [r] of a [PollEvents] call
    started in world [w], where [this] points to [o], retrieved the
    messages [retrieved], in this order. *)
Definition polled (this : ptr) (o : Window) (w : World) (retrieved : list MSG)
    (r : Outcome unit) : Prop :=
  strings (world_of r) = strings w
  /\ objects (world_of r) =
       (if existsb is_quit retrieved
        then <[this := set_is_open false o]> (objects w)
        else objects w)
  /\ queue w ++ flat_map (posted_by env) retrieved = retrieved ++ queue (world_of r)
  /\ ((r = Ok tt (world_of r)
       /\ queue (world_of r) = []
       /\ trace (world_of r) =
            trace w ++ flat_map iteration_calls retrieved ++ [peek_call])
      \/ (r = OutOfFuel (world_of r)
          /\ trace (world_of r) =
               trace w ++ flat_map iteration_calls retrieved)).

End PollEventsModel.

(** ** Termination of the message loop *)

(** The loop ends when processing messages cannot go on posting messages
    for ever: every message posted while [m] is processed (by
    [TranslateMessage], by the default window procedure, or the quit
    message [WindowProc] posts for WM_DESTROY) ranks strictly below [m]. *)
Definition ranked (env : Env) (rank : MSG -> nat) : Prop :=
  forall m p, p ∈ posted_by env m -> (rank p < rank m)%nat.

Definition settles (env : Env) : Prop := exists rank, ranked env rank.

Definition ranks_below (rank : MSG -> nat) (r : nat) (m : MSG) : Prop :=
  (rank m < r)%nat.

(** ** Sequences of operations on a surface *)

(** What a client, or the system, can do once a surface exists. *)
Inductive Op :=
| OpPollEvents
| OpDraw
| OpIsOpen
| OpGetTitle
| OpGetWidth
| OpGetHeight
| OpGetWindowHandle
| OpArrive (ms : list MSG).     (* the system posts messages to the thread *)

Section OperationsModel.

Variable env : Env.

Definition run_op (fuel : nat) (this : ptr) (op : Op) : M unit :=
  match op with
  | OpPollEvents => PollEvents env fuel this
  | OpDraw => Draw env this
  | OpIsOpen => do _ <- IsOpen this; ret tt
  | OpGetTitle => do _ <- GetTitle this; ret tt
  | OpGetWidth => do _ <- GetWidth this; ret tt
  | OpGetHeight => do _ <- GetHeight this; ret tt
  | OpGetWindowHandle => do _ <- GetWindowHandle this; ret tt
  | OpArrive ms => post ms
  end.

Fixpoint run_ops (fuel : nat) (this : ptr) (ops : list Op) : M unit :=
  match ops with
  | [] => ret tt
  | op :: ops' => run run_op fuel this op; run_ops fuel this ops'
  end.

(** The [StretchDIBits] call [Draw] issues for an object. *)
Definition blit_call (o : Window) : Call :=
  CStretchDIBits (os_GetDC env (handle (m_window_handle o)))
    0 0 (m_width o) (m_height o) 0 0 (m_width o) (m_height o)
    (m_framebuffer o) (m_bmi o) DIB_RGB_COLORS SRCCOPY.

Definition draw_calls (o : Window) : list Call :=
  [ CGetDC (handle (m_window_handle o));
    blit_call o;
    CReleaseDC (handle (m_window_handle o))
               (os_GetDC env (handle (m_window_handle o))) ].

(** [o'] is [o] except that it may have been closed. *)
Definition frozen (o o' : Window) : Prop :=
  m_title o' = m_title o
  /\ m_width o' = m_width o
  /\ m_height o' = m_height o
  /\ m_window_handle o' = m_window_handle o
  /\ m_framebuffer o' = m_framebuffer o
  /\ m_bmi o' = m_bmi o
  /\ (m_is_open o' = true -> m_is_open o = true).

(** Calls a living surface makes: no window is destroyed, and whatever is
    blitted is the blit of [o]. *)
Definition benign (o : Window) (c : Call) : Prop :=
  match c with
  | CStretchDIBits _ _ _ _ _ _ _ _ _ _ _ _ _ => c = blit_call o
  | CDestroyWindow _ => False
  | _ => True
  end.

(** From [w] to [w'] the surface [this], which was [o], kept everything
    but possibly its open flag, and no string changed. *)
Definition surface_kept (this : ptr) (o : Window) (w w' : World) : Prop :=
  strings w' = strings w
  /\ (exists o', objects w' !! this = Some o' /\ frozen o o')
  /\ (exists new, trace w' = trace w ++ new /\ Forall (benign o) new).

End OperationsModel.

(** ** The whole runtime *)

(** A call that, if it is a blit, blits the pixels [fill]. *)
Definition blits_only (fill : list Z) (c : Call) : Prop :=
  match c with
  | CStretchDIBits _ _ _ _ _ _ _ _ _ lpBits _ _ _ => lpBits = fill
  | _ => True
  end.

(** The world in which the loop of [main] starts, once the surface was
    constructed and the temporary title string is gone: the title
    reference of the surface dangles from here on. *)
Definition loop_start (env : Env) (w : World) : World :=
  let title := fresh (dom (strings w)) in
  mkWorld (delete title (<[title := "Rasterizer"%string]> (strings w)))
    (<[fresh (dom (objects w)) := constructed env "Rasterizer" title 800 600]>
       (objects w))
    (queue w)
    (trace w ++ ctor_calls env "Rasterizer" 800 600).

Fixpoint count_blits (calls : list Call) : nat :=
  match calls with
  | [] => 0%nat
  | CStretchDIBits _ _ _ _ _ _ _ _ _ _ _ _ _ :: rest => S (count_blits rest)
  | _ :: rest => count_blits rest
  end.

(** ** Concrete environments and worlds for the examples *)

(** A system that creates every window asked for, turns key strokes into
    character messages and lets its default procedure post nothing. *)
Definition test_env : Env :=
  mkEnv 7 (fun _ _ _ => 1000) (fun _ => 55)
    (fun m => if message m =? WM_KEYDOWN
              then [mkMSG (hwnd m) WM_CHAR (wParam m) 0] else [])
    (fun _ _ _ _ => (0, [])) (fun _ => true).

(** The same system, unable to create a window. *)
Definition failing_env : Env :=
  mkEnv 7 (fun _ _ _ => NULL) (fun _ => 55)
    (fun m => if message m =? WM_KEYDOWN
              then [mkMSG (hwnd m) WM_CHAR (wParam m) 0] else [])
    (fun _ _ _ _ => (0, [])) (fun _ => true).

(** A system whose default window procedure answers WM_CLOSE by destroying
    the window; the destroy notification the window then receives is
    represented as a message for it. *)
Definition closing_env : Env :=
  mkEnv 7 (fun _ _ _ => 1000) (fun _ => 55) (fun _ => [])
    (fun h u _ _ => if u =? WM_CLOSE then (0, [mkMSG h WM_DESTROY 0 0]) else (0, []))
    (fun _ => true).

(** A caller's string "Test" at address 1; nothing else exists yet. *)
Definition test_world : World :=
  mkWorld {[ 1%positive := "Test"%string ]} ∅ [] [].

Definition test_rank (m : MSG) : nat :=
  if (message m =? WM_KEYDOWN) || (message m =? WM_DESTROY) then 1%nat else 0%nat.

(** A live 2 x 2 surface at address 1 with a key stroke and a destroy
    notification pending. *)
Definition poll_world : World :=
  mkWorld {[ 1%positive := "Test"%string ]}
    {[ 1%positive := constructed test_env "Test" 1%positive 2 2 ]}
    [mkMSG 1000 WM_KEYDOWN 65 0; mkMSG 1000 WM_DESTROY 0 0] [].

(** The same surface with a key stroke and a quit message pending. *)
Definition quit_world : World :=
  mkWorld {[ 1%positive := "Test"%string ]}
    {[ 1%positive := constructed test_env "Test" 1%positive 2 2 ]}
    [mkMSG 1000 WM_KEYDOWN 65 0; quit_message 0] [].

(** ** The earlier program at the head of main.cpp (lines 1-139)

    Only its integer part is embedded: the pixel value and the loops that
    write it.  The colour byte comes from the clock through floating point
    arithmetic and is an input here. *)

Module Legacy.

(** [#define WIDTH 800], [#define HEIGHT 600] *)
Definition WIDTH : Z := 800.
Definition HEIGHT : Z := 600.

(** The [int] that is congruent to [z] modulo 2^32: the value of a left
    shift on [int] (C++20). *)
Definition to_int (z : Z) : Z := (z + 2 ^ 31) mod 2 ^ 32 - 2 ^ 31.

Definition shl (x n : Z) : Z := to_int (Z.shiftl x n).

(** Conversion to [uint32_t] on assignment. *)
Definition to_u32 (z : Z) : Z := z mod 2 ^ 32.

(** [(a << 24) | (r << 16) | (g << 8) | b] on [uint8_t] operands, which are
    promoted to [int], stored into a [uint32_t] (line 133). *)
Definition pixel (a r g b : Z) : Z :=
  to_u32 (Z.lor (Z.lor (Z.lor (shl a 24) (shl r 16)) (shl g 8)) b).

(** [framebuffer[i] = v]; an index outside the array is undefined: [None]. *)
Definition write (fb : list Z) (i v : Z) : option (list Z) :=
  if (0 <=? i) && (i <? Z.of_nat (length fb))
  then Some (<[Z.to_nat i := v]> fb)
  else None.

(** [for (int x = ...; x < width; ++x) framebuffer[y * width + x] = ...],
    with [todo] iterations left (lines 131-134). *)
Fixpoint row_loop (width : Z) (todo : nat) (y x : Z) (a r g b : Z) (fb : list Z)
  : option (list Z) :=
  match todo with
  | O => Some fb
  | S todo' =>
      match write fb (y * width + x) (pixel a r g b) with
      | Some fb' => row_loop width todo' y (x + 1) a r g b fb'
      | None => None
      end
  end.

(** [for (int y = ...; y < height; ++y) { for (int x = 0; ...) ... }], with
    [todo] rows left (lines 129-135). *)
Fixpoint rows_loop (width : Z) (todo : nat) (y : Z) (a r g b : Z) (fb : list Z)
  : option (list Z) :=
  match todo with
  | O => Some fb
  | S todo' =>
      match row_loop width (Z.to_nat width) y 0 a r g b fb with
      | Some fb' => rows_loop width todo' (y + 1) a r g b fb'
      | None => None
      end
  end.

Definition fill (width height : Z) (a r g b : Z) (fb : list Z) : option (list Z) :=
  rows_loop width (Z.to_nat height) 0 a r g b fb.

(** Lines 125-135 of the loop body, for the byte [color] of line 124. *)
Definition paint_frame (color : Z) (fb : list Z) : option (list Z) :=
  let a := 0 in
  let r := color in
  let g := 255 in
  let b := 0 in
  fill WIDTH HEIGHT a r g b fb.

(** The first [n] pixels written, the rest as it was. *)
Definition painted (n : nat) (v : Z) (fb : list Z) : list Z :=
  replicate n v ++ drop n fb.

End Legacy.

(** ** The heap around a surface *)

(** From [w] to [w'] the only object that may differ is [this], which was
    [o] and is [o] still, except that it may have been closed. *)
Definition heap_kept (this : ptr) (o : Window) (w w' : World) : Prop :=
  exists o', frozen o o' /\ objects w' = <[this := o']> (objects w).

(** * Reasoning about the program *)

(** Symbolic execution of straight-line code of the monad. *)
Ltac msimpl :=
  repeat (cbv [bind ret store load modify log post deref lift_int undefined throw
               Win32.GetModuleHandle Win32.RegisterClass Win32.CreateWindowEx
               Win32.ShowWindow Win32.DestroyWindow Win32.GetDC
               Win32.StretchDIBits Win32.ReleaseDC
               set_is_open set_window_handle set_framebuffer set_bmi
               set_biSize set_biWidth set_biHeight set_biPlanes set_biBitCount
               set_biCompression];
          cbv beta iota;
          cbn [strings objects queue trace world_of
               m_title m_width m_height m_is_open m_window_handle
               m_framebuffer m_bmi handle bmiHeader bmiColors
               biSize biWidth biHeight biPlanes biBitCount biCompression
               biSizeImage biXPelsPerMeter biYPelsPerMeter biClrUsed
               biClrImportant BITMAPINFO_zero];
          rewrite ?lookup_insert_eq, ?insert_insert_eq).

(** ** Integers *)

Lemma in_range_spec z :
  Int.in_range z = true <-> Int.INT_MIN <= z <= Int.INT_MAX.
Proof. unfold Int.in_range. rewrite andb_true_iff, !Z.leb_le. tauto. Qed.

Lemma mul_Some a b p : Int.mul a b = Some p -> p = a * b /\ Int.in_range p = true.
Proof.
  unfold Int.mul. destruct (Int.in_range (a * b)) eqn:E; [|discriminate].
  intros [= <-]. auto.
Qed.

Lemma mul_in_range a b : Int.in_range (a * b) = true -> Int.mul a b = Some (a * b).
Proof. unfold Int.mul. intros ->. reflexivity. Qed.

Lemma neg_Some a n : Int.neg a = Some n -> n = - a.
Proof.
  unfold Int.neg. destruct (Int.in_range (- a)); [|discriminate]. congruence.
Qed.

Lemma neg_in_range a : Int.INT_MIN < a <= Int.INT_MAX -> Int.neg a = Some (- a).
Proof.
  intros H. unfold Int.neg.
  replace (Int.in_range (- a)) with true; [reflexivity|].
  symmetry. apply in_range_spec. unfold Int.INT_MIN, Int.INT_MAX in *. lia.
Qed.

(** ** The framebuffer allocation of the constructor *)

(** [m_framebuffer.resize(n, val)] on the empty vector, for [n] converted
    from an [int] [p]: a negative [p] becomes a size beyond max_size. *)
Lemma vector_resize_of_int env p val w :
  Int.in_range p = true ->
  Std.vector_resize env [] (Int.to_size_t p) val w =
    if p <? 0 then Throws length_error w
    else if (p =? 0) || os_alloc env (4 * p)
         then Ok (replicate (Z.to_nat p) val) w
         else Throws bad_alloc w.
Proof.
  intros Hp%in_range_spec. unfold Int.INT_MIN, Int.INT_MAX in Hp.
  unfold Std.vector_resize, Std.vector_max_size, Std.sizeof_u32,
    Int.to_size_t, Int.SIZE_MAX.
  change ((2 ^ 64 - 1) / 4) with 4611686018427387903.
  cbn [length]. change (Z.of_nat 0) with 0.
  destruct (Z.ltb_spec p 0) as [Hneg|Hpos].
  - assert (p mod 2 ^ 64 = p + 2 ^ 64) as ->.
    { symmetry. apply (Z.mod_unique_pos _ _ (-1)); lia. }
    destruct (Z.ltb_spec 4611686018427387903 (p + 2 ^ 64)); [reflexivity|lia].
  - rewrite Z.mod_small by lia.
    destruct (Z.ltb_spec 4611686018427387903 p); [lia|].
    destruct (Z.leb_spec p 0).
    + assert (p = 0) as -> by lia. reflexivity.
    + destruct (Z.eqb_spec p 0); [lia|]. cbn [orb].
      rewrite Nat.sub_0_r. destruct (os_alloc env (4 * p)); reflexivity.
Qed.

(** ** The constructor in closed form *)

Section Constructor.

Variable env : Env.

Lemma Window_ctor_eq this title width height w text :
  strings w !! title = Some text ->
  Window_ctor env this title width height w =
    let at58 := with_object this (opened env text title width height)
                  (ctor_calls env text width height) w in
    if Int.in_range (width * height) then
      if width * height <? 0 then Throws length_error at58
      else if (width * height =? 0) || os_alloc env (4 * (width * height)) then
        if Int.in_range (- height) then
          Ok tt (with_object this (constructed env text title width height)
                   (ctor_calls env text width height) w)
        else
          Undefined (with_object this (sized env text title width height)
                       (ctor_calls env text width height) w)
      else Throws bad_alloc at58
    else Undefined at58.
Proof.
  intros Htitle. unfold Window_ctor, with_object, ctor_calls. msimpl.
  rewrite Htitle. msimpl.
  rewrite <- !app_assoc. cbn [app].
  unfold Int.mul. destruct (Int.in_range (width * height)) eqn:Hr; msimpl;
    [|reflexivity].
  rewrite vector_resize_of_int by exact Hr.
  destruct (width * height <? 0); [reflexivity|].
  destruct ((width * height =? 0) || os_alloc env (4 * (width * height)));
    [|reflexivity].
  msimpl. unfold Int.neg.
  destruct (Int.in_range (- height)); msimpl; reflexivity.
Qed.

(** A dangling title reference is read at line 39. *)
Lemma Window_ctor_dangling this title width height w :
  strings w !! title = None ->
  exists w', Window_ctor env this title width height w = Undefined w'.
Proof.
  intros Htitle. unfold Window_ctor. msimpl. rewrite Htitle. eauto.
Qed.

End Constructor.

(** ** One turn of the message loop *)

Section MessageLoop.

Variable env : Env.

Lemma take_first_any m q :
  Win32.take_first (Win32.msg_selected NULL 0 0) (m :: q) = Some (m, q).
Proof. reflexivity. Qed.

Lemma PeekMessage_empty w :
  queue w = [] ->
  Win32.PeekMessage NULL 0 0 PM_REMOVE w =
    Ok None (mkWorld (strings w) (objects w) [] (trace w ++ [peek_call])).
Proof.
  intros Hq. unfold Win32.PeekMessage. msimpl. rewrite Hq. reflexivity.
Qed.

Lemma PeekMessage_cons w m q :
  queue w = m :: q ->
  Win32.PeekMessage NULL 0 0 PM_REMOVE w =
    Ok (Some m) (mkWorld (strings w) (objects w) q (trace w ++ [peek_call])).
Proof.
  intros Hq. unfold Win32.PeekMessage. msimpl. rewrite Hq, take_first_any.
  reflexivity.
Qed.

Lemma WindowProc_eq h u wp lp w :
  WindowProc env h u wp lp w =
    if u =? WM_DESTROY
    then Ok 0 (mkWorld (strings w) (objects w) (queue w ++ [quit_message 0])
                 (trace w ++ [CPostQuitMessage 0]))
    else Ok (fst (os_DefWindowProc env h u wp lp))
            (mkWorld (strings w) (objects w)
               (queue w ++ snd (os_DefWindowProc env h u wp lp))
               (trace w ++ [CDefWindowProc h u wp lp])).
Proof.
  unfold WindowProc, Win32.PostQuitMessage, Win32.DefWindowProc, quit_message.
  destruct (u =? WM_DESTROY); msimpl; reflexivity.
Qed.

Lemma PollEvents_O this w : PollEvents env 0 this w = OutOfFuel w.
Proof. reflexivity. Qed.

Lemma PollEvents_S_empty fuel this w :
  queue w = [] ->
  PollEvents env (S fuel) this w =
    Ok tt (mkWorld (strings w) (objects w) [] (trace w ++ [peek_call])).
Proof.
  intros Hq. cbn [PollEvents]. unfold bind at 1.
  rewrite PeekMessage_empty by exact Hq. reflexivity.
Qed.

Lemma PollEvents_S_cons fuel this o w m q :
  queue w = m :: q ->
  (is_quit m = true -> objects w !! this = Some o) ->
  PollEvents env (S fuel) this w =
    PollEvents env fuel this (after_message env this o m q w).
Proof.
  intros Hq Ho. cbn [PollEvents]. unfold bind at 1.
  rewrite (PeekMessage_cons _ _ _ Hq).
  unfold after_message, close_if_quit, iteration_calls, posted_by,
    handler_calls, handler_posts, Win32.TranslateMessage, Win32.DispatchMessage.
  unfold is_quit in *.
  destruct (message m =? WM_QUIT); msimpl; rewrite ?Ho by reflexivity; msimpl;
    (destruct (hwnd m =? NULL); msimpl;
     [|rewrite WindowProc_eq; destruct (message m =? WM_DESTROY); msimpl]);
    rewrite <- ?app_assoc; cbn [app]; rewrite ?app_nil_r; reflexivity.
Qed.

(** A quit message makes the loop write through [this]. *)
Lemma PollEvents_S_quit_dangling fuel this w m q :
  queue w = m :: q ->
  is_quit m = true ->
  objects w !! this = None ->
  exists w', PollEvents env (S fuel) this w = Undefined w'.
Proof.
  intros Hq Hm Ho. cbn [PollEvents]. unfold bind at 1.
  rewrite (PeekMessage_cons _ _ _ Hq). unfold is_quit in Hm. rewrite Hm.
  msimpl. rewrite Ho. eauto.
Qed.

End MessageLoop.

(** ** A whole [PollEvents] call *)

Section PollEventsRun.

Variable env : Env.

Lemma close_if_quit_lookup this o m objs :
  objs !! this = Some o ->
  close_if_quit this o m objs !! this =
    Some (if is_quit m then set_is_open false o else o).
Proof.
  intros Ho. unfold close_if_quit. destruct (is_quit m); [|exact Ho].
  apply lookup_insert_eq.
Qed.

Lemma PollEvents_polled fuel : forall this o w,
  objects w !! this = Some o ->
  exists retrieved, polled env this o w retrieved (PollEvents env fuel this w).
Proof.
  induction fuel as [|fuel IH]; intros this o w Ho.
  - exists []. rewrite PollEvents_O. unfold polled. cbn.
    rewrite !app_nil_r. auto 10.
  - destruct (queue w) as [|m q] eqn:Hq.
    + exists []. rewrite PollEvents_S_empty by exact Hq. unfold polled. cbn.
      rewrite Hq. auto 10.
    + rewrite (PollEvents_S_cons env fuel this o w m q Hq (fun _ => Ho)).
      destruct (IH this _ (after_message env this o m q w)
                  (close_if_quit_lookup this o m _ Ho))
        as (rs & Hs & Hobj & Hqueue & Htrace).
      exists (m :: rs). unfold polled.
      cbn [after_message strings objects queue trace] in *.
      split; [exact Hs|]. split; [|split].
      * rewrite Hobj. cbn [existsb]. unfold close_if_quit.
        destruct (is_quit m); cbn [orb]; [|reflexivity].
        destruct (existsb is_quit rs); [|reflexivity].
        cbn. rewrite insert_insert_eq. reflexivity.
      * rewrite Hq. cbn [flat_map app]. f_equal.
        rewrite app_assoc. exact Hqueue.
      * cbn [flat_map].
        destruct Htrace as [(Hr & Hempty & Ht)|(Hr & Ht)]; [left|right];
          rewrite Ht, <- !app_assoc; auto.
Qed.

(** More fuel does not change a call that returned. *)
Lemma PollEvents_fuel_mono fuel : forall this w w' extra,
  PollEvents env fuel this w = Ok tt w' ->
  PollEvents env (fuel + extra) this w = Ok tt w'.
Proof.
  induction fuel as [|fuel IH]; intros this w w' extra H.
  - rewrite PollEvents_O in H. discriminate.
  - cbn [Nat.add]. destruct (queue w) as [|m q] eqn:Hq.
    + rewrite PollEvents_S_empty in * by exact Hq. exact H.
    + destruct (objects w !! this) as [o|] eqn:Ho.
      * rewrite (PollEvents_S_cons env fuel this o w m q Hq (fun _ => Ho)) in H.
        rewrite (PollEvents_S_cons env _ this o w m q Hq (fun _ => Ho)).
        apply IH. exact H.
      * destruct (is_quit m) eqn:Hm.
        -- destruct (PollEvents_S_quit_dangling env fuel this w m q Hq Hm Ho)
             as [w1 Hu]. congruence.
        -- assert (is_quit m = true -> objects w !! this = Some (mkWindow 1%positive 0 0 false (mkWindowHandle 0) [] BITMAPINFO_zero))
             as Hv by (rewrite Hm; discriminate).
           rewrite (PollEvents_S_cons env fuel this _ w m q Hq Hv) in H.
           rewrite (PollEvents_S_cons env _ this _ w m q Hq Hv).
           apply IH. exact H.
Qed.

End PollEventsRun.

(** ** Termination of the message loop *)

Section Termination.

Variable env : Env.
Variable rank : MSG -> nat.
Hypothesis Hrank : ranked env rank.

Lemma drain_front r :
  (forall this o w, objects w !! this = Some o -> Forall (ranks_below rank r) (queue w) ->
     exists fuel w', PollEvents env fuel this w = Ok tt w') ->
  forall front back this o w,
    objects w !! this = Some o ->
    queue w = front ++ back ->
    Forall (ranks_below rank (S r)) front ->
    Forall (ranks_below rank r) back ->
    exists fuel w', PollEvents env fuel this w = Ok tt w'.
Proof.
  intros Hlow front.
  induction front as [|m front IH]; intros back this o w Ho Hq Hfront Hback.
  - apply (Hlow this o w Ho). rewrite Hq. exact Hback.
  - apply Forall_cons in Hfront as [Hm Hfront].
    destruct (IH (back ++ posted_by env m) this _
                (after_message env this o m (front ++ back) w)
                (close_if_quit_lookup this o m _ Ho))
      as (fuel & w' & Hrun).
    + cbn [after_message queue]. rewrite app_assoc. reflexivity.
    + exact Hfront.
    + apply Forall_app. split; [exact Hback|].
      apply Forall_forall. intros p Hp. specialize (Hrank m p Hp).
      unfold ranks_below in *. lia.
    + exists (S fuel), w'.
      rewrite (PollEvents_S_cons env fuel this o w m (front ++ back) Hq (fun _ => Ho)).
      exact Hrun.
Qed.

Lemma drain_below r : forall this o w,
  objects w !! this = Some o ->
  Forall (ranks_below rank r) (queue w) ->
  exists fuel w', PollEvents env fuel this w = Ok tt w'.
Proof.
  induction r as [|r IH]; intros this o w Ho Hq.
  - destruct (queue w) as [|m q] eqn:E.
    + exists 1%nat. eexists. apply PollEvents_S_empty. exact E.
    + apply Forall_cons in Hq as [Hm _]. unfold ranks_below in Hm. lia.
  - apply (drain_front r IH (queue w) [] this o w Ho).
    + rewrite app_nil_r. reflexivity.
    + exact Hq.
    + constructor.
Qed.

Lemma bounded_ranks (q : list MSG) : exists r, Forall (ranks_below rank r) q.
Proof.
  induction q as [|m q [r IH]].
  - exists 0%nat. constructor.
  - exists (S (rank m) `max` r)%nat. constructor.
    + unfold ranks_below. lia.
    + eapply Forall_impl; [exact IH|]. unfold ranks_below. intros; lia.
Qed.

Lemma PollEvents_terminates_ranked this o w :
  objects w !! this = Some o ->
  exists fuel w', PollEvents env fuel this w = Ok tt w'.
Proof.
  intros Ho. destruct (bounded_ranks (queue w)) as [r Hr].
  exact (drain_below r this o w Ho Hr).
Qed.

End Termination.

Lemma PollEvents_terminates env this o w :
  settles env ->
  objects w !! this = Some o ->
  exists fuel w', PollEvents env fuel this w = Ok tt w'.
Proof.
  intros [rank Hrank] Ho.
  exact (PollEvents_terminates_ranked env rank Hrank this o w Ho).
Qed.

(** ** Sequences of operations on a surface *)

Section Operations.

Variable env : Env.

Lemma frozen_refl o : frozen o o.
Proof. unfold frozen. auto 10. Qed.

Lemma frozen_trans o1 o2 o3 : frozen o1 o2 -> frozen o2 o3 -> frozen o1 o3.
Proof. unfold frozen. intuition congruence. Qed.

Lemma frozen_close o : frozen o (set_is_open false o).
Proof. unfold frozen, set_is_open. cbn. intuition discriminate. Qed.

Lemma blit_call_frozen o o' : frozen o o' -> blit_call env o' = blit_call env o.
Proof.
  unfold frozen, blit_call. intros (_ & -> & -> & -> & -> & -> & _). reflexivity.
Qed.

Lemma benign_frozen o o' c : frozen o o' -> benign env o' c -> benign env o c.
Proof.
  intros Hf. destruct c; cbn; auto. rewrite (blit_call_frozen o o' Hf). auto.
Qed.

Lemma surface_kept_refl this o w :
  objects w !! this = Some o -> surface_kept env this o w w.
Proof.
  intros Ho. unfold surface_kept. split; [reflexivity|]. split.
  - exists o. auto using frozen_refl.
  - exists []. rewrite app_nil_r. auto.
Qed.

Lemma surface_kept_trans this o w w1 w2 :
  surface_kept env this o w w1 ->
  (forall o1, objects w1 !! this = Some o1 -> frozen o o1 ->
              surface_kept env this o1 w1 w2) ->
  surface_kept env this o w w2.
Proof.
  intros (Hs & (o1 & Ho1 & Hf1) & (new1 & Ht1 & Hb1)) Hnext.
  destruct (Hnext o1 Ho1 Hf1) as (Hs2 & (o2 & Ho2 & Hf2) & (new2 & Ht2 & Hb2)).
  split; [congruence|]. split.
  - exists o2. eauto using frozen_trans.
  - exists (new1 ++ new2). split.
    + rewrite Ht2, Ht1, app_assoc. reflexivity.
    + apply Forall_app. split; [exact Hb1|].
      eapply Forall_impl; [exact Hb2|]. intros c. apply benign_frozen. exact Hf1.
Qed.

Lemma benign_iteration_calls o retrieved :
  Forall (benign env o) (flat_map iteration_calls retrieved).
Proof.
  induction retrieved as [|m rs IH]; [constructor|].
  cbn [flat_map]. apply Forall_app. split; [|exact IH].
  unfold iteration_calls, handler_calls, peek_call.
  destruct (hwnd m =? NULL); [|destruct (message m =? WM_DESTROY)];
    repeat constructor.
Qed.

(** Whatever way a [PollEvents] call ends. *)
Lemma PollEvents_kept fuel this o w :
  objects w !! this = Some o ->
  surface_kept env this o w (world_of (PollEvents env fuel this w)).
Proof.
  intros Ho.
  destruct (PollEvents_polled env fuel this o w Ho)
    as (rs & Hs & Hobj & _ & Htrace).
  split; [exact Hs|]. split.
  - rewrite Hobj. destruct (existsb is_quit rs).
    + exists (set_is_open false o). rewrite lookup_insert_eq.
      auto using frozen_close.
    + exists o. auto using frozen_refl.
  - destruct Htrace as [(_ & _ & Ht)|(_ & Ht)]; eexists; (split; [exact Ht|]).
    + apply Forall_app. split; [apply benign_iteration_calls|].
      repeat constructor.
    + apply benign_iteration_calls.
Qed.

Lemma Draw_eq this o w :
  objects w !! this = Some o ->
  Draw env this w =
    Ok tt (mkWorld (strings w) (objects w) (queue w) (trace w ++ draw_calls env o)).
Proof.
  intros Ho. unfold Draw, draw_calls, blit_call. msimpl. rewrite Ho. msimpl.
  rewrite <- !app_assoc. reflexivity.
Qed.

Lemma Draw_kept this o w :
  objects w !! this = Some o ->
  surface_kept env this o w (world_of (Draw env this w)).
Proof.
  intros Ho. rewrite (Draw_eq this o w Ho). cbn [world_of].
  split; [reflexivity|]. split.
  - exists o. auto using frozen_refl.
  - exists (draw_calls env o). split; [reflexivity|].
    unfold draw_calls. repeat constructor.
Qed.

Lemma IsOpen_eq this o w :
  objects w !! this = Some o -> IsOpen this w = Ok (m_is_open o) w.
Proof. intros Ho. unfold IsOpen. msimpl. rewrite Ho. reflexivity. Qed.

Lemma GetTitle_eq this o w :
  objects w !! this = Some o -> GetTitle this w = Ok (m_title o) w.
Proof. intros Ho. unfold GetTitle. msimpl. rewrite Ho. reflexivity. Qed.

Lemma GetWidth_eq this o w :
  objects w !! this = Some o -> GetWidth this w = Ok (m_width o) w.
Proof. intros Ho. unfold GetWidth. msimpl. rewrite Ho. reflexivity. Qed.

Lemma GetHeight_eq this o w :
  objects w !! this = Some o -> GetHeight this w = Ok (m_height o) w.
Proof. intros Ho. unfold GetHeight. msimpl. rewrite Ho. reflexivity. Qed.

Lemma GetWindowHandle_eq this o w :
  objects w !! this = Some o ->
  GetWindowHandle this w = Ok (m_window_handle o) w.
Proof. intros Ho. unfold GetWindowHandle. msimpl. rewrite Ho. reflexivity. Qed.

Lemma run_op_kept fuel this o w op :
  objects w !! this = Some o ->
  surface_kept env this o w (world_of (run_op env fuel this op w)).
Proof.
  intros Ho. destruct op; cbn [run_op].
  - apply PollEvents_kept. exact Ho.
  - apply Draw_kept. exact Ho.
  - unfold bind. rewrite (IsOpen_eq this o w Ho). apply surface_kept_refl, Ho.
  - unfold bind. rewrite (GetTitle_eq this o w Ho). apply surface_kept_refl, Ho.
  - unfold bind. rewrite (GetWidth_eq this o w Ho). apply surface_kept_refl, Ho.
  - unfold bind. rewrite (GetHeight_eq this o w Ho). apply surface_kept_refl, Ho.
  - unfold bind. rewrite (GetWindowHandle_eq this o w Ho).
    apply surface_kept_refl, Ho.
  - unfold post. cbn [world_of]. split; [reflexivity|]. split.
    + exists o. auto using frozen_refl.
    + exists []. cbn [trace]. rewrite app_nil_r. auto.
Qed.

Lemma run_ops_kept fuel this ops : forall o w,
  objects w !! this = Some o ->
  surface_kept env this o w (world_of (run_ops env fuel this ops w)).
Proof.
  induction ops as [|op ops IH]; intros o w Ho.
  - apply surface_kept_refl. exact Ho.
  - cbn [run_ops]. unfold bind.
    pose proof (run_op_kept fuel this o w op Ho) as Hop.
    destruct (run_op env fuel this op w) as [[] w1|e w1|w1|w1]; cbn [world_of] in *;
      try exact Hop.
    eapply surface_kept_trans; [exact Hop|].
    intros o1 Ho1 _. apply IH. exact Ho1.
Qed.

End Operations.

Section OperationsReturn.

Variable env : Env.

Lemma run_op_fuel_mono fuel this op w w' extra :
  run_op env fuel this op w = Ok tt w' ->
  run_op env (fuel + extra) this op w = Ok tt w'.
Proof.
  destruct op; cbn [run_op]; auto. apply PollEvents_fuel_mono.
Qed.

Lemma run_ops_fuel_mono fuel this ops extra : forall w w',
  run_ops env fuel this ops w = Ok tt w' ->
  run_ops env (fuel + extra) this ops w = Ok tt w'.
Proof.
  induction ops as [|op ops IH]; intros w w'; cbn [run_ops]; [auto|].
  unfold bind.
  destruct (run_op env fuel this op w) as [[] w1| | |] eqn:Hop; try discriminate.
  rewrite (run_op_fuel_mono fuel this op w w1 extra Hop). apply IH.
Qed.

Lemma run_op_returns this o w op :
  settles env ->
  objects w !! this = Some o ->
  exists fuel w', run_op env fuel this op w = Ok tt w'.
Proof.
  intros Henv Ho. destruct op; cbn [run_op].
  - exact (PollEvents_terminates env this o w Henv Ho).
  - exists 0%nat. eexists. apply (Draw_eq env this o w Ho).
  - exists 0%nat, w. unfold bind. rewrite (IsOpen_eq this o w Ho). reflexivity.
  - exists 0%nat, w. unfold bind. rewrite (GetTitle_eq this o w Ho). reflexivity.
  - exists 0%nat, w. unfold bind. rewrite (GetWidth_eq this o w Ho). reflexivity.
  - exists 0%nat, w. unfold bind. rewrite (GetHeight_eq this o w Ho). reflexivity.
  - exists 0%nat, w. unfold bind. rewrite (GetWindowHandle_eq this o w Ho).
    reflexivity.
  - exists 0%nat. eexists. reflexivity.
Qed.

(** With enough fuel for its [PollEvents] calls, a sequence of operations
    on a live surface runs to its end. *)
Lemma run_ops_returns this ops : forall o w,
  settles env ->
  objects w !! this = Some o ->
  exists fuel w', run_ops env fuel this ops w = Ok tt w'.
Proof.
  induction ops as [|op ops IH]; intros o w Henv Ho.
  - exists 0%nat, w. reflexivity.
  - destruct (run_op_returns this o w op Henv Ho) as (f1 & w1 & H1).
    pose proof (run_op_kept env f1 this o w op Ho) as Hk.
    rewrite H1 in Hk. destruct Hk as (_ & (o1 & Ho1 & _) & _).
    cbn [world_of] in Ho1.
    destruct (IH o1 w1 Henv Ho1) as (f2 & w2 & H2).
    exists (f1 + f2)%nat, w2. cbn [run_ops]. unfold bind.
    rewrite (run_op_fuel_mono f1 this op w w1 f2 H1).
    rewrite Nat.add_comm. apply run_ops_fuel_mono. exact H2.
Qed.

End OperationsReturn.

(** ** The factory *)

Section Factory.

Variable env : Env.

Lemma Create_eq title width height w text :
  strings w !! title = Some text ->
  Rasterizer.Create env true title width height w =
    let this := fresh (dom (objects w)) in
    let at58 := with_object this (opened env text title width height)
                  (ctor_calls env text width height) w in
    if Int.in_range (width * height) then
      if width * height <? 0 then
        Throws length_error (Rasterizer.release_in this at58)
      else if (width * height =? 0) || os_alloc env (4 * (width * height)) then
        if Int.in_range (- height) then
          Ok (Some this)
             (with_object this (constructed env text title width height)
                (ctor_calls env text width height) w)
        else
          Undefined (with_object this (sized env text title width height)
                       (ctor_calls env text width height) w)
      else Throws bad_alloc (Rasterizer.release_in this at58)
    else Undefined at58.
Proof.
  intros Htitle. unfold Rasterizer.Create, Rasterizer.MakeShared_Window.
  rewrite (Window_ctor_eq env _ title width height w text Htitle). cbv zeta.
  destruct (Int.in_range (width * height)); [|reflexivity].
  destruct (width * height <? 0); [reflexivity|].
  destruct ((width * height =? 0) || os_alloc env (4 * (width * height)));
    [|reflexivity].
  destruct (Int.in_range (- height)); reflexivity.
Qed.

(** What is known when the factory has returned. *)
Lemma Create_Ok_inv title width height w text window w' :
  strings w !! title = Some text ->
  Rasterizer.Create env true title width height w = Ok window w' ->
  window = Some (fresh (dom (objects w)))
  /\ w' = with_object (fresh (dom (objects w)))
            (constructed env text title width height)
            (ctor_calls env text width height) w
  /\ 0 <= width * height <= Int.INT_MAX
  /\ Int.INT_MIN <= - height <= Int.INT_MAX.
Proof.
  intros Htitle. rewrite (Create_eq title width height w text Htitle). cbv zeta.
  destruct (Int.in_range (width * height)) eqn:Hr; [|discriminate].
  destruct (Z.ltb_spec (width * height) 0); [discriminate|].
  destruct ((width * height =? 0) || os_alloc env (4 * (width * height)));
    [|discriminate].
  destruct (Int.in_range (- height)) eqn:Hn; [|discriminate].
  intros [= <- <-]. apply in_range_spec in Hr, Hn.
  repeat split; auto; lia.
Qed.

(** When the factory returns. *)
Lemma Create_Ok_intro title width height w text :
  strings w !! title = Some text ->
  0 <= width * height <= Int.INT_MAX ->
  Int.INT_MIN <= - height <= Int.INT_MAX ->
  width * height = 0 \/ os_alloc env (4 * (width * height)) = true ->
  Rasterizer.Create env true title width height w =
    Ok (Some (fresh (dom (objects w))))
       (with_object (fresh (dom (objects w)))
          (constructed env text title width height)
          (ctor_calls env text width height) w).
Proof.
  intros Htitle Hp Hn Ha.
  rewrite (Create_eq title width height w text Htitle). cbv zeta.
  replace (Int.in_range (width * height)) with true
    by (symmetry; apply in_range_spec; unfold Int.INT_MIN; lia).
  replace (Int.in_range (- height)) with true
    by (symmetry; apply in_range_spec; lia).
  destruct (Z.ltb_spec (width * height) 0); [lia|].
  replace ((width * height =? 0) || os_alloc env (4 * (width * height)))
    with true; [reflexivity|].
  symmetry. apply orb_true_iff. rewrite Z.eqb_eq. exact Ha.
Qed.

Lemma with_object_lookup this o calls w :
  objects (with_object this o calls w) !! this = Some o.
Proof. apply lookup_insert_eq. Qed.

End Factory.

(** ** The runtime *)

Section RuntimeLoop.

Variable env : Env.
Variable poll_fuel : nat.

Lemma post_kept this o ms w :
  objects w !! this = Some o ->
  surface_kept env this o w (world_of (post ms w)).
Proof. exact (run_op_kept env 0 this o w (OpArrive ms)). Qed.

(** However far the loop is followed, the surface keeps all but its open
    flag, and draws nothing but its own framebuffer. *)
Lemma main_loop_kept this arrivals : forall o w,
  objects w !! this = Some o ->
  surface_kept env this o w
    (world_of (Runtime.main_loop env poll_fuel arrivals (Some this) w)).
Proof.
  induction arrivals as [|ms arrivals IH]; intros o w Ho.
  - cbn [Runtime.main_loop Rasterizer.arrow]. unfold bind.
    rewrite (IsOpen_eq this o w Ho).
    destruct (m_is_open o); apply surface_kept_refl; exact Ho.
  - cbn [Runtime.main_loop Rasterizer.arrow]. unfold bind at 1.
    rewrite (IsOpen_eq this o w Ho).
    destruct (m_is_open o); [|apply surface_kept_refl; exact Ho].
    unfold bind at 1.
    pose proof (post_kept this o ms w Ho) as Hpost.
    destruct (post ms w) as [[] wa| | |] eqn:Epost; try discriminate.
    cbn [world_of] in Hpost.
    eapply surface_kept_trans; [exact Hpost|]. intros oa Hoa _.
    unfold bind at 1.
    pose proof (PollEvents_kept env poll_fuel this oa wa Hoa) as Hpoll.
    destruct (PollEvents env poll_fuel this wa) as [[] w1|e w1|w1|w1];
      cbn [world_of] in *; try exact Hpoll.
    eapply surface_kept_trans; [exact Hpoll|]. intros o1 Ho1 _.
    unfold bind at 1.
    pose proof (Draw_kept env this o1 w1 Ho1) as Hdraw.
    rewrite (Draw_eq env this o1 w1 Ho1) in *. cbn [world_of] in Hdraw.
    eapply surface_kept_trans; [exact Hdraw|]. intros o2 Ho2 _.
    apply IH. exact Ho2.
Qed.

End RuntimeLoop.

Lemma benign_blits_only env o c : benign env o c -> blits_only (m_framebuffer o) c.
Proof.
  destruct c; cbn; auto. unfold blit_call. intros [= _ _ _ _ _ _ _ _ _ -> _]. reflexivity.
Qed.

Lemma WindowPtr_reset_eq this o w :
  objects w !! this = Some o ->
  Rasterizer.WindowPtr_reset (Some this) w =
    Ok tt (Rasterizer.release_in this
             (mkWorld (strings w) (objects w) (queue w)
                (trace w ++ if negb (handle (m_window_handle o) =? NULL)
                            then [CDestroyWindow (handle (m_window_handle o))]
                            else []))).
Proof.
  intros Ho. unfold Rasterizer.WindowPtr_reset, Window_dtor, Rasterizer.release.
  msimpl. rewrite Ho. msimpl.
  destruct (negb (handle (m_window_handle o) =? NULL)); msimpl;
    rewrite ?app_nil_r; reflexivity.
Qed.

Lemma main_win32_eq env poll_fuel arrivals w :
  Runtime.main env true poll_fuel arrivals w =
    let this := fresh (dom (objects w)) in
    if os_alloc env (4 * (800 * 600)) then
      match Runtime.main_loop env poll_fuel arrivals (Some this) (loop_start env w) with
      | Ok _ w3 =>
          match Rasterizer.WindowPtr_reset (Some this) w3 with
          | Ok _ w4 => Ok 0 w4
          | Throws e w4 => Throws e w4
          | Undefined w4 => Undefined w4
          | OutOfFuel w4 => OutOfFuel w4
          end
      | Throws e w3 => Throws e w3
      | Undefined w3 => Undefined w3
      | OutOfFuel w3 => OutOfFuel w3
      end
    else
      Throws bad_alloc
        (mkWorld (<[fresh (dom (strings w)) := "Rasterizer"%string]> (strings w))
           (delete this
              (<[this := opened env "Rasterizer" (fresh (dom (strings w))) 800 600]>
                 (objects w)))
           (queue w)
           (trace w ++ ctor_calls env "Rasterizer" 800 600)).
Proof.
  unfold Runtime.main. unfold bind at 1. unfold Std.new_string.
  unfold bind at 1.
  rewrite (Create_eq env _ 800 600 _ "Rasterizer"%string)
    by apply lookup_insert_eq.
  cbv zeta. cbn [objects strings queue trace].
  change (Int.in_range (800 * 600)) with true.
  change (800 * 600 <? 0) with false.
  change (Int.in_range (Z.opp 600)) with true.
  change ((800 * 600 =? 0) || os_alloc env (4 * (800 * 600)))
    with (os_alloc env (4 * (800 * 600))).
  cbv iota.
  destruct (os_alloc env (4 * (800 * 600))); [|reflexivity].
  unfold bind at 1. unfold Std.delete_string at 1.
  unfold bind at 1. unfold loop_start, with_object.
  cbn [objects strings queue trace].
  destruct (Runtime.main_loop env poll_fuel arrivals _ _); reflexivity.
Qed.

Lemma main_other_eq env poll_fuel arrivals w :
  Runtime.main env false poll_fuel arrivals w =
    Undefined (mkWorld (delete (fresh (dom (strings w)))
                          (<[fresh (dom (strings w)) := "Rasterizer"%string]> (strings w)))
                 (objects w) (queue w) (trace w)).
Proof. destruct arrivals; reflexivity. Qed.

(** ** The example system settles *)

Lemma test_env_ranked : ranked test_env test_rank.
Proof.
  intros m p. unfold posted_by, handler_posts, test_rank. cbn.
  destruct (message m =? WM_KEYDOWN) eqn:Hk.
  - destruct (hwnd m =? NULL); [|destruct (message m =? WM_DESTROY)];
      cbn; rewrite ?elem_of_cons, ?elem_of_nil;
      intros H; decompose [or] H; subst; try contradiction; cbn; lia.
  - destruct (hwnd m =? NULL); [|destruct (message m =? WM_DESTROY)];
      cbn; rewrite ?elem_of_cons, ?elem_of_nil;
      intros H; decompose [or] H; subst; try contradiction; cbn; lia.
Qed.

Lemma test_env_settles : settles test_env.
Proof. exists test_rank. exact test_env_ranked. Qed.

(** * The claims *)

(** C1.  A call of the factory with positive [width] and [height] for which
    the native window is created returns, whenever it returns at all, a
    surface whose [GetWidth], [GetHeight] and [IsOpen] give [width],
    [height] and [true] and whose [GetTitle] refers to the title text
    passed in; and it does return once the product fits an [int] and the
    pixel store can be allocated. *)
Theorem Create_yields_ready_surface env title text width height w :
  0 < width -> 0 < height ->
  strings w !! title = Some text ->
  os_CreateWindowEx env text width height <> NULL ->
  (forall window w',
      Rasterizer.Create env true title width height w = Ok window w' ->
      exists this, window = Some this
        /\ GetWidth this w' = Ok width w'
        /\ GetHeight this w' = Ok height w'
        /\ (do r <- GetTitle this; deref r) w' = Ok text w'
        /\ IsOpen this w' = Ok true w')
  /\ (width * height <= Int.INT_MAX ->
      os_alloc env (4 * (width * height)) = true ->
      exists this w',
        Rasterizer.Create env true title width height w = Ok (Some this) w').
Proof.
  intros Hw Hh Htitle Hcreated. split.
  - intros window w' HC.
    destruct (Create_Ok_inv env title width height w text window w' Htitle HC)
      as (-> & -> & _ & _).
    eexists. split; [reflexivity|].
    pose proof (with_object_lookup (fresh (dom (objects w)))
                  (constructed env text title width height)
                  (ctor_calls env text width height) w) as Ho.
    rewrite (GetWidth_eq _ _ _ Ho), (GetHeight_eq _ _ _ Ho), (IsOpen_eq _ _ _ Ho).
    unfold bind. rewrite (GetTitle_eq _ _ _ Ho).
    unfold deref, constructed, with_object. cbn [strings m_title m_width m_height m_is_open].
    rewrite Htitle. repeat split.
    destruct (Z.eqb_spec (os_CreateWindowEx env text width height) NULL);
      [contradiction|reflexivity].
  - intros Hfit Halloc. eexists _, _.
    apply (Create_Ok_intro env title width height w text Htitle).
    + nia.
    + unfold Int.INT_MIN, Int.INT_MAX in *. nia.
    + right. exact Halloc.
Qed.

Lemma Create_yields_ready_surface_witness :
  (forall window w',
      Rasterizer.Create test_env true 1%positive 4 3 test_world = Ok window w' ->
      exists this, window = Some this
        /\ GetWidth this w' = Ok 4 w'
        /\ GetHeight this w' = Ok 3 w'
        /\ (do r <- GetTitle this; deref r) w' = Ok "Test"%string w'
        /\ IsOpen this w' = Ok true w')
  /\ (4 * 3 <= Int.INT_MAX ->
      os_alloc test_env (4 * (4 * 3)) = true ->
      exists this w',
        Rasterizer.Create test_env true 1%positive 4 3 test_world = Ok (Some this) w').
Proof.
  apply (Create_yields_ready_surface test_env 1%positive "Test"%string 4 3 test_world).
  - lia.
  - lia.
  - reflexivity.
  - cbn. unfold NULL. lia.
Defined.

(** C2.  When the factory has returned a surface for [(width, height)], its
    framebuffer has exactly [width * height] entries and each of them is
    0xFF0000FF.  For the title "Test" and 800 x 600 the factory returns
    (given the memory) a surface of width 800 and height 600 whose
    framebuffer has 480000 entries. *)
Theorem framebuffer_after_construction env title text width height w :
  strings w !! title = Some text ->
  (forall this w',
      Rasterizer.Create env true title width height w = Ok (Some this) w' ->
      exists o, objects w' !! this = Some o
        /\ Z.of_nat (length (m_framebuffer o)) = width * height
        /\ Forall (fun pixel => pixel = 0xFF0000FF) (m_framebuffer o))
  /\ (text = "Test"%string ->
      os_alloc env (4 * (800 * 600)) = true ->
      exists this w' o,
        Rasterizer.Create env true title 800 600 w = Ok (Some this) w'
        /\ objects w' !! this = Some o
        /\ Z.of_nat (length (m_framebuffer o)) = 480000
        /\ Forall (fun pixel => pixel = 0xFF0000FF) (m_framebuffer o)
        /\ GetWidth this w' = Ok 800 w'
        /\ GetHeight this w' = Ok 600 w').
Proof.
  intros Htitle.
  assert (forall width height this w',
      Rasterizer.Create env true title width height w = Ok (Some this) w' ->
      exists o, objects w' !! this = Some o
        /\ Z.of_nat (length (m_framebuffer o)) = width * height
        /\ Forall (fun pixel => pixel = 0xFF0000FF) (m_framebuffer o)
        /\ m_width o = width /\ m_height o = height) as Hgeneral.
  { intros wd ht this w' HC.
    destruct (Create_Ok_inv env title wd ht w text _ w' Htitle HC)
      as (Hthis & -> & Hp & _).
    injection Hthis as ->.
    exists (constructed env text title wd ht).
    split; [apply with_object_lookup|].
    unfold constructed. cbn [m_framebuffer m_width m_height].
    rewrite length_replicate, Z2Nat.id by lia.
    repeat split. apply Forall_replicate. reflexivity. }
  split.
  - intros this w' HC.
    destruct (Hgeneral width height this w' HC) as (o & Ho & Hlen & Hfill & _).
    eauto.
  - intros _ Halloc.
    pose proof (Create_Ok_intro env title 800 600 w text Htitle) as HC.
    specialize (HC ltac:(unfold Int.INT_MAX; lia)
                   ltac:(unfold Int.INT_MIN, Int.INT_MAX; lia)
                   (or_intror Halloc)).
    destruct (Hgeneral 800 600 _ _ HC) as (o & Ho & Hlen & Hfill & Hwd & Hht).
    eexists _, _, o. split; [exact HC|].
    rewrite (GetWidth_eq _ _ _ Ho), (GetHeight_eq _ _ _ Ho), Hwd, Hht.
    repeat split; auto.
Qed.

Lemma framebuffer_after_construction_witness :
  (forall this w',
      Rasterizer.Create test_env true 1%positive 4 3 test_world = Ok (Some this) w' ->
      exists o, objects w' !! this = Some o
        /\ Z.of_nat (length (m_framebuffer o)) = 4 * 3
        /\ Forall (fun pixel => pixel = 0xFF0000FF) (m_framebuffer o))
  /\ ("Test"%string = "Test"%string ->
      os_alloc test_env (4 * (800 * 600)) = true ->
      exists this w' o,
        Rasterizer.Create test_env true 1%positive 800 600 test_world
          = Ok (Some this) w'
        /\ objects w' !! this = Some o
        /\ Z.of_nat (length (m_framebuffer o)) = 480000
        /\ Forall (fun pixel => pixel = 0xFF0000FF) (m_framebuffer o)
        /\ GetWidth this w' = Ok 800 w'
        /\ GetHeight this w' = Ok 600 w').
Proof.
  apply (framebuffer_after_construction test_env 1%positive "Test"%string 4 3
           test_world).
  reflexivity.
Defined.

(** C3, as stated, fails: with a system that cannot create the window, the
    factory still hands back a non-null pointer. *)
Lemma Create_failure_is_not_null :
  os_CreateWindowEx failing_env "Test"%string 800 600 = NULL
  /\ exists this w',
       Rasterizer.Create failing_env true 1%positive 800 600 test_world
         = Ok (Some this) w'.
Proof.
  split; [reflexivity|]. eexists _, _.
  apply (Create_Ok_intro failing_env 1%positive 800 600 test_world "Test"%string).
  - reflexivity.
  - unfold Int.INT_MAX. lia.
  - unfold Int.INT_MIN, Int.INT_MAX. lia.
  - right. reflexivity.
Qed.

(** C3, amended.  In a WIN32 build a failed native window creation does not
    make the factory return null: whenever it returns, the result is a
    non-null surface of the requested width and height whose native handle
    is NULL and whose [IsOpen] is [false], and it returns as soon as the
    framebuffer can be sized and allocated.  Only a build without WIN32
    returns the null pointer, and does so for every call. *)
Theorem Create_after_native_failure env title text width height w :
  strings w !! title = Some text ->
  os_CreateWindowEx env text width height = NULL ->
  (forall window w',
      Rasterizer.Create env true title width height w = Ok window w' ->
      exists this, window = Some this
        /\ IsOpen this w' = Ok false w'
        /\ GetWindowHandle this w' = Ok (mkWindowHandle NULL) w'
        /\ GetWidth this w' = Ok width w'
        /\ GetHeight this w' = Ok height w')
  /\ (0 <= width * height <= Int.INT_MAX ->
      Int.INT_MIN < height <= Int.INT_MAX ->
      os_alloc env (4 * (width * height)) = true ->
      exists this w',
        Rasterizer.Create env true title width height w = Ok (Some this) w')
  /\ Rasterizer.Create env false title width height w = Ok None w.
Proof.
  intros Htitle Hfailed. split; [|split].
  - intros window w' HC.
    destruct (Create_Ok_inv env title width height w text window w' Htitle HC)
      as (-> & -> & _ & _).
    eexists. split; [reflexivity|].
    pose proof (with_object_lookup (fresh (dom (objects w)))
                  (constructed env text title width height)
                  (ctor_calls env text width height) w) as Ho.
    rewrite (GetWidth_eq _ _ _ Ho), (GetHeight_eq _ _ _ Ho), (IsOpen_eq _ _ _ Ho),
      (GetWindowHandle_eq _ _ _ Ho).
    unfold constructed.
    cbn [m_width m_height m_is_open m_window_handle].
    rewrite Hfailed. repeat split.
  - intros Hp Hh Halloc. eexists _, _.
    apply (Create_Ok_intro env title width height w text Htitle Hp).
    + unfold Int.INT_MIN, Int.INT_MAX in *. lia.
    + right. exact Halloc.
  - reflexivity.
Qed.

Lemma Create_after_native_failure_witness :
  (forall window w',
      Rasterizer.Create failing_env true 1%positive 4 3 test_world = Ok window w' ->
      exists this, window = Some this
        /\ IsOpen this w' = Ok false w'
        /\ GetWindowHandle this w' = Ok (mkWindowHandle NULL) w'
        /\ GetWidth this w' = Ok 4 w'
        /\ GetHeight this w' = Ok 3 w')
  /\ (0 <= 4 * 3 <= Int.INT_MAX ->
      Int.INT_MIN < 3 <= Int.INT_MAX ->
      os_alloc failing_env (4 * (4 * 3)) = true ->
      exists this w',
        Rasterizer.Create failing_env true 1%positive 4 3 test_world
          = Ok (Some this) w')
  /\ Rasterizer.Create failing_env false 1%positive 4 3 test_world = Ok None test_world.
Proof.
  apply (Create_after_native_failure failing_env 1%positive "Test"%string 4 3
           test_world).
  - reflexivity.
  - reflexivity.
Defined.

(** C9.  Neither the factory nor the constructor looks at the sign of
    [width] or [height].  For every call the values reach [CreateWindowEx]
    as they are; the framebuffer is sized by their product: the call
    returns a surface of these dimensions whenever the product is a
    non-negative [int] whose pixels can be allocated (so for (0, 0) and
    (-2, -3) as well), and a negative product ends in the [length_error] of
    the vector, not in a check of the arguments. *)
Theorem Create_does_not_validate_dimensions env title text width height w :
  strings w !! title = Some text ->
  trace (world_of (Rasterizer.Create env true title width height w))
    = trace w ++ ctor_calls env text width height
  /\ CCreateWindowEx 0 CLASS_NAME text WS_OVERLAPPEDWINDOW
       CW_USEDEFAULT CW_USEDEFAULT width height (os_hInstance env)
     ∈ trace (world_of (Rasterizer.Create env true title width height w))
  /\ (0 <= width * height <= Int.INT_MAX ->
      Int.INT_MIN <= - height <= Int.INT_MAX ->
      width * height = 0 \/ os_alloc env (4 * (width * height)) = true ->
      exists this w' o,
        Rasterizer.Create env true title width height w = Ok (Some this) w'
        /\ objects w' !! this = Some o
        /\ m_width o = width
        /\ m_height o = height
        /\ Z.of_nat (length (m_framebuffer o)) = width * height)
  /\ (Int.INT_MIN <= width * height < 0 ->
      exists w',
        Rasterizer.Create env true title width height w = Throws length_error w').
Proof.
  intros Htitle.
  assert (trace (world_of (Rasterizer.Create env true title width height w))
          = trace w ++ ctor_calls env text width height) as Htrace.
  { rewrite (Create_eq env title width height w text Htitle). cbv zeta.
    destruct (Int.in_range (width * height)); [|reflexivity].
    destruct (width * height <? 0); [reflexivity|].
    destruct ((width * height =? 0) || os_alloc env (4 * (width * height)));
      [|reflexivity].
    destruct (Int.in_range (- height)); reflexivity. }
  split; [exact Htrace|]. split; [|split].
  - rewrite Htrace. apply elem_of_app. right. unfold ctor_calls.
    do 3 apply list_elem_of_further. apply list_elem_of_here.
  - intros Hp Hn Ha.
    eexists _, _, (constructed env text title width height).
    split; [exact (Create_Ok_intro env title width height w text Htitle Hp Hn Ha)|].
    split; [apply with_object_lookup|].
    unfold constructed. cbn [m_width m_height m_framebuffer].
    rewrite length_replicate, Z2Nat.id by lia. auto.
  - intros Hneg. rewrite (Create_eq env title width height w text Htitle). cbv zeta.
    replace (Int.in_range (width * height)) with true
      by (symmetry; apply in_range_spec; unfold Int.INT_MAX; lia).
    destruct (Z.ltb_spec (width * height) 0); [eauto|lia].
Qed.

Lemma Create_does_not_validate_dimensions_witness :
  exists this w' o,
    Rasterizer.Create test_env true 1%positive (-2) (-3) test_world = Ok (Some this) w'
    /\ objects w' !! this = Some o
    /\ m_width o = -2
    /\ m_height o = -3
    /\ Z.of_nat (length (m_framebuffer o)) = -2 * -3.
Proof.
  destruct (Create_does_not_validate_dimensions test_env 1%positive "Test"%string
              (-2) (-3) test_world) as (_ & _ & Haccepted & _).
  - reflexivity.
  - apply Haccepted.
    + unfold Int.INT_MAX. lia.
    + unfold Int.INT_MIN, Int.INT_MAX. lia.
    + right. reflexivity.
Defined.

(** C5.  [Draw] on a surface whose framebuffer holds [P] returns and leaves
    the object, hence the framebuffer, as it was: only the trace grows, by
    the three calls of which the middle one hands [P] to [StretchDIBits].  A
    second [Draw] finds the same [P] and leaves it again. *)
Theorem Draw_keeps_framebuffer env this o P w :
  objects w !! this = Some o ->
  m_framebuffer o = P ->
  exists w1 w2,
    Draw env this w = Ok tt w1
    /\ w1 = mkWorld (strings w) (objects w) (queue w) (trace w ++ draw_calls env o)
    /\ m_framebuffer <$> objects w1 !! this = Some P
    /\ Draw env this w1 = Ok tt w2
    /\ w2 = mkWorld (strings w) (objects w) (queue w)
              (trace w ++ draw_calls env o ++ draw_calls env o)
    /\ m_framebuffer <$> objects w2 !! this = Some P.
Proof.
  intros Ho HP. eexists _, _.
  split; [exact (Draw_eq env this o w Ho)|]. split; [reflexivity|].
  cbn [objects]. rewrite Ho. cbn [fmap option_fmap option_map]. rewrite HP.
  split; [reflexivity|].
  split; [apply Draw_eq; exact Ho|].
  cbn [strings objects queue trace]. rewrite <- app_assoc.
  split; [reflexivity|].
  rewrite Ho. cbn [fmap option_fmap option_map]. rewrite HP. reflexivity.
Qed.

Lemma Draw_keeps_framebuffer_witness :
  exists w1 w2,
    Draw test_env 1%positive
      (mkWorld ∅ {[ 1%positive := constructed test_env "Test" 1%positive 2 2 ]} [] [])
      = Ok tt w1
    /\ m_framebuffer <$> objects w1 !! 1%positive
       = Some [0xFF0000FF; 0xFF0000FF; 0xFF0000FF; 0xFF0000FF]
    /\ Draw test_env 1%positive w1 = Ok tt w2
    /\ m_framebuffer <$> objects w2 !! 1%positive
       = Some [0xFF0000FF; 0xFF0000FF; 0xFF0000FF; 0xFF0000FF].
Proof.
  destruct (Draw_keeps_framebuffer test_env 1%positive
              (constructed test_env "Test" 1%positive 2 2)
              [0xFF0000FF; 0xFF0000FF; 0xFF0000FF; 0xFF0000FF]
              (mkWorld ∅ {[ 1%positive := constructed test_env "Test" 1%positive 2 2 ]} [] []))
    as (w1 & w2 & H1 & _ & H2 & H3 & _ & H4).
  - reflexivity.
  - reflexivity.
  - exists w1, w2. auto.
Defined.

(** A quit message among the retrieved ones closes the surface. *)
Lemma polled_IsOpen env this o w retrieved w' :
  objects w !! this = Some o ->
  polled env this o w retrieved (Ok tt w') ->
  IsOpen this w' = Ok (m_is_open o && negb (existsb is_quit retrieved)) w'
  /\ GetWindowHandle this w' = Ok (m_window_handle o) w'.
Proof.
  intros Ho (_ & Hobj & _). cbn [world_of] in Hobj.
  destruct (existsb is_quit retrieved).
  - assert (objects w' !! this = Some (set_is_open false o)) as Ho'
      by (rewrite Hobj; apply lookup_insert_eq).
    rewrite (IsOpen_eq _ _ _ Ho'), (GetWindowHandle_eq _ _ _ Ho').
    cbn. rewrite andb_false_r. auto.
  - assert (objects w' !! this = Some o) as Ho' by congruence.
    rewrite (IsOpen_eq _ _ _ Ho'), (GetWindowHandle_eq _ _ _ Ho').
    cbn. rewrite andb_true_r. auto.
Qed.

(** C7.  On a live surface, in a system where message processing settles,
    [PollEvents] returns with the queue empty.  The messages it retrieved
    are the pending ones, in their order, followed by those posted
    meanwhile; each was taken out by a [PeekMessage] with [PM_REMOVE] and
    passed to [TranslateMessage] and [DispatchMessage]; a last
    [PeekMessage] found nothing, and on an empty queue that is the only
    call made.  The surface is closed exactly when it was closed before or
    a WM_QUIT was among the retrieved messages; the native handle is kept
    and no window is destroyed.  [WindowProc] answers WM_DESTROY with
    [PostQuitMessage(0)] and the result 0, and hands every other message to
    [DefWindowProc]. *)
Theorem PollEvents_drains_queue env this o w :
  settles env ->
  objects w !! this = Some o ->
  (exists fuel retrieved w',
      PollEvents env fuel this w = Ok tt w'
      /\ queue w' = []
      /\ retrieved = queue w ++ flat_map (posted_by env) retrieved
      /\ trace w' = trace w ++ flat_map iteration_calls retrieved ++ [peek_call]
      /\ IsOpen this w' = Ok (m_is_open o && negb (existsb is_quit retrieved)) w'
      /\ GetWindowHandle this w' = Ok (m_window_handle o) w'
      /\ forall h,
           CDestroyWindow h ∉ flat_map iteration_calls retrieved ++ [peek_call])
  /\ (queue w = [] ->
      forall fuel,
        PollEvents env (S fuel) this w =
          Ok tt (mkWorld (strings w) (objects w) [] (trace w ++ [peek_call])))
  /\ (forall h wp lp w0,
        WindowProc env h WM_DESTROY wp lp w0 =
          Ok 0 (mkWorld (strings w0) (objects w0) (queue w0 ++ [quit_message 0])
                  (trace w0 ++ [CPostQuitMessage 0])))
  /\ (forall h u wp lp w0,
        u <> WM_DESTROY ->
        WindowProc env h u wp lp w0 = Win32.DefWindowProc env h u wp lp w0).
Proof.
  intros Henv Ho. split; [|split; [|split]].
  - destruct (PollEvents_terminates env this o w Henv Ho) as (fuel & w' & Hrun).
    destruct (PollEvents_polled env fuel this o w Ho) as (rs & Hpolled).
    rewrite Hrun in Hpolled.
    destruct (polled_IsOpen env this o w rs w' Ho Hpolled) as (Hopen & Hhandle).
    destruct Hpolled as (_ & _ & Hqueue & Htrace). cbn [world_of] in *.
    destruct Htrace as [(_ & Hempty & Ht)|(Habsurd & _)]; [|discriminate].
    exists fuel, rs, w'. rewrite Hempty, app_nil_r in Hqueue.
    repeat split; auto.
    intros h Hin.
    assert (Forall (benign env o) (flat_map iteration_calls rs ++ [peek_call]))
      as Hb.
    { apply Forall_app. split; [apply benign_iteration_calls|].
      repeat constructor. }
    rewrite Forall_forall in Hb. exact (Hb _ Hin).
  - intros Hq fuel. apply PollEvents_S_empty. exact Hq.
  - intros h wp lp w0. rewrite WindowProc_eq. reflexivity.
  - intros h u wp lp w0 Hu. unfold WindowProc.
    destruct (Z.eqb_spec u WM_DESTROY); [contradiction|reflexivity].
Qed.

(** C4.  On a live surface, in a system where message processing settles:
    with a WM_QUIT pending, the next [PollEvents] returns and [IsOpen] is
    [false] afterwards, and after any further operations (polling,
    drawing, the accessors, new messages arriving) it is [false] still.
    In general no run of such operations, however it ends, leaves [IsOpen]
    true on a surface that was closed. *)
Theorem IsOpen_never_reopens env this o w :
  settles env ->
  objects w !! this = Some o ->
  ((exists m, m ∈ queue w /\ message m = WM_QUIT) ->
    exists fuel w1,
      PollEvents env fuel this w = Ok tt w1
      /\ IsOpen this w1 = Ok false w1
      /\ forall ops, exists fuel' w2,
           run_ops env fuel' this ops w1 = Ok tt w2
           /\ IsOpen this w2 = Ok false w2)
  /\ (forall ops fuel,
        exists b,
          IsOpen this (world_of (run_ops env fuel this ops w))
            = Ok b (world_of (run_ops env fuel this ops w))
          /\ (b = true -> m_is_open o = true)).
Proof.
  intros Henv Ho.
  assert (forall o0 w0 ops fuel, objects w0 !! this = Some o0 ->
            exists b,
              IsOpen this (world_of (run_ops env fuel this ops w0))
                = Ok b (world_of (run_ops env fuel this ops w0))
              /\ (b = true -> m_is_open o0 = true)) as Hmono.
  { intros o0 w0 ops fuel Ho0.
    destruct (run_ops_kept env fuel this ops o0 w0 Ho0)
      as (_ & (o' & Ho' & Hf) & _).
    exists (m_is_open o'). split; [apply IsOpen_eq; exact Ho'|].
    apply Hf. }
  split; [|intros ops fuel; exact (Hmono o w ops fuel Ho)].
  intros (m & Hm & Hquit).
  destruct (PollEvents_terminates env this o w Henv Ho) as (fuel & w1 & Hrun).
  destruct (PollEvents_polled env fuel this o w Ho) as (rs & Hpolled).
  rewrite Hrun in Hpolled.
  destruct (polled_IsOpen env this o w rs w1 Ho Hpolled) as (Hopen & _).
  assert (existsb is_quit rs = true) as Hseen.
  { destruct Hpolled as (_ & _ & Hqueue & Htrace). cbn [world_of] in *.
    destruct Htrace as [(_ & Hempty & _)|(Habsurd & _)]; [|discriminate].
    rewrite Hempty, app_nil_r in Hqueue.
    apply existsb_exists. exists m. split.
    - apply list_elem_of_In. rewrite <- Hqueue. apply elem_of_app. auto.
    - unfold is_quit. apply Z.eqb_eq. exact Hquit. }
  rewrite Hseen, andb_false_r in Hopen.
  exists fuel, w1. split; [exact Hrun|]. split; [exact Hopen|].
  intros ops.
  assert (exists o1, objects w1 !! this = Some o1 /\ m_is_open o1 = false)
    as (o1 & Ho1 & Hclosed).
  { unfold IsOpen, bind, load, ret in Hopen.
    destruct (objects w1 !! this) as [o1|]; [|discriminate].
    exists o1. split; [reflexivity|]. congruence. }
  destruct (run_ops_returns env this ops o1 w1 Henv Ho1) as (fuel' & w2 & Hops).
  exists fuel', w2. split; [exact Hops|].
  destruct (Hmono o1 w1 ops fuel' Ho1) as (b & Hb & Himp).
  rewrite Hops in Hb. cbn [world_of] in Hb. rewrite Hb.
  destruct b; [|reflexivity].
  specialize (Himp eq_refl). congruence.
Qed.

(** C8.  However a run of operations on a live surface ends, the object
    still has the title reference, width, height and presentation
    descriptor it had, no string has changed, and the accessors still
    return the same values.  Each accessor returns the stored member and
    leaves the world exactly as it found it. *)
Theorem surface_attributes_are_fixed env this o w :
  objects w !! this = Some o ->
  (forall ops fuel,
      exists o',
        objects (world_of (run_ops env fuel this ops w)) !! this = Some o'
        /\ m_title o' = m_title o
        /\ m_width o' = m_width o
        /\ m_height o' = m_height o
        /\ m_bmi o' = m_bmi o
        /\ strings (world_of (run_ops env fuel this ops w)) = strings w
        /\ GetTitle this (world_of (run_ops env fuel this ops w))
           = Ok (m_title o) (world_of (run_ops env fuel this ops w))
        /\ GetWidth this (world_of (run_ops env fuel this ops w))
           = Ok (m_width o) (world_of (run_ops env fuel this ops w))
        /\ GetHeight this (world_of (run_ops env fuel this ops w))
           = Ok (m_height o) (world_of (run_ops env fuel this ops w))
        /\ GetWindowHandle this (world_of (run_ops env fuel this ops w))
           = Ok (m_window_handle o) (world_of (run_ops env fuel this ops w)))
  /\ GetTitle this w = Ok (m_title o) w
  /\ GetWidth this w = Ok (m_width o) w
  /\ GetHeight this w = Ok (m_height o) w
  /\ GetWindowHandle this w = Ok (m_window_handle o) w.
Proof.
  intros Ho. split.
  - intros ops fuel.
    destruct (run_ops_kept env fuel this ops o w Ho)
      as (Hs & (o' & Ho' & Ht & Hw & Hh & Hwh & _ & Hbmi & _) & _).
    exists o'.
    rewrite (GetTitle_eq _ _ _ Ho'), (GetWidth_eq _ _ _ Ho'),
      (GetHeight_eq _ _ _ Ho'), (GetWindowHandle_eq _ _ _ Ho').
    rewrite Ht, Hw, Hh, Hwh. auto 10.
  - rewrite (GetTitle_eq _ _ _ Ho), (GetWidth_eq _ _ _ Ho),
      (GetHeight_eq _ _ _ Ho), (GetWindowHandle_eq _ _ _ Ho). auto.
Qed.

(** C6.  The surface the factory returns for [(width, height)] carries the
    descriptor with header size 40, width [width], height [- height], one
    plane, 32 bits per pixel and compression [BI_RGB], all other members
    zero; the stored height is the negation of the surface's height; and
    however a run of operations on the surface ends, the descriptor is the
    same. *)
Theorem presentation_descriptor env title text width height w this w' :
  strings w !! title = Some text ->
  Rasterizer.Create env true title width height w = Ok (Some this) w' ->
  exists o,
    objects w' !! this = Some o
    /\ m_bmi o =
         mkBITMAPINFO
           (mkBITMAPINFOHEADER 40 width (- height) 1 32 BI_RGB 0 0 0 0 0) 0
    /\ biHeight (bmiHeader (m_bmi o)) = - m_height o
    /\ forall ops fuel,
         exists o',
           objects (world_of (run_ops env fuel this ops w')) !! this = Some o'
           /\ m_bmi o' = m_bmi o.
Proof.
  intros Htitle HC.
  destruct (Create_Ok_inv env title width height w text _ w' Htitle HC)
    as (Hthis & -> & _ & _).
  injection Hthis as ->.
  exists (constructed env text title width height).
  split; [apply with_object_lookup|]. split; [reflexivity|]. split; [reflexivity|].
  intros ops fuel.
  destruct (run_ops_kept env fuel (fresh (dom (objects w))) ops _ _
              (with_object_lookup _ (constructed env text title width height)
                 (ctor_calls env text width height) w))
    as (_ & (o' & Ho' & Hf) & _).
  exists o'. split; [exact Ho'|]. apply Hf.
Qed.

(** C10.  Whatever the system does and however far the run of [main] is
    followed (to its end, to an exception, or up to any number of loop
    iterations), every [StretchDIBits] call the program has made carries
    the 480000 pixels 0xFF0000FF the constructor wrote, and the surface,
    as long as it exists, still holds exactly these pixels. *)
Theorem runtime_presents_only_initial_fill env WIN32 poll_fuel arrivals w :
  exists new,
    trace (world_of (Runtime.main env WIN32 poll_fuel arrivals w)) = trace w ++ new
    /\ (forall hdc xd yd dw dh xs ys sw sh bits bmi usage rop,
          CStretchDIBits hdc xd yd dw dh xs ys sw sh bits bmi usage rop ∈ new ->
          bits = replicate (Z.to_nat (800 * 600)) 0xFF0000FF)
    /\ (forall o,
          objects (world_of (Runtime.main env WIN32 poll_fuel arrivals w))
            !! fresh (dom (objects w)) = Some o ->
          m_framebuffer o = replicate (Z.to_nat (800 * 600)) 0xFF0000FF).
Proof.
  set (fill := replicate (Z.to_nat (800 * 600)) 0xFF0000FF).
  set (this := fresh (dom (objects w))).
  assert (objects w !! this = None) as Hfresh.
  { apply not_elem_of_dom. apply is_fresh. }
  enough (exists new,
    trace (world_of (Runtime.main env WIN32 poll_fuel arrivals w)) = trace w ++ new
    /\ Forall (blits_only fill) new
    /\ (forall o,
          objects (world_of (Runtime.main env WIN32 poll_fuel arrivals w)) !! this
            = Some o -> m_framebuffer o = fill)) as (new & Ht & Hb & Ho).
  { exists new. split; [exact Ht|]. split; [|exact Ho].
    intros hdc xd yd dw dh xs ys sw sh bits bmi usage rop Hin.
    rewrite Forall_forall in Hb. exact (Hb _ Hin). }
  destruct WIN32.
  - rewrite main_win32_eq. cbv zeta. fold this.
    set (calls := ctor_calls env "Rasterizer" 800 600).
    assert (Forall (blits_only fill) calls) as Hcalls
      by (unfold calls, ctor_calls; repeat constructor).
    destruct (os_alloc env (4 * (800 * 600))).
    + (* the surface exists *)
      set (o := constructed env "Rasterizer" (fresh (dom (strings w))) 800 600).
      assert (objects (loop_start env w) !! this = Some o) as Ho2
        by apply lookup_insert_eq.
      pose proof (main_loop_kept env poll_fuel this arrivals o _ Ho2)
        as (_ & (o' & Ho' & Hf) & (new & Ht & Hb)).
      assert (m_framebuffer o' = fill) as Hfb.
      { destruct Hf as (_ & _ & _ & _ & -> & _). reflexivity. }
      assert (Forall (blits_only fill) new) as Hnew.
      { eapply Forall_impl; [exact Hb|]. intros c Hc.
        exact (benign_blits_only env o c Hc). }
      cbn [loop_start trace] in Ht. fold calls in Ht.
      destruct (Runtime.main_loop env poll_fuel arrivals (Some this)
                  (loop_start env w)) as [[] w3|e w3|w3|w3]; cbn [world_of] in *.
      * rewrite (WindowPtr_reset_eq this o' w3 Ho').
        cbn [world_of Rasterizer.release_in trace objects].
        eexists. split; [|split].
        -- rewrite Ht, <- !app_assoc. reflexivity.
        -- apply Forall_app. split; [exact Hcalls|].
           apply Forall_app. split; [exact Hnew|].
           destruct (negb _); repeat constructor.
        -- intros o0. rewrite lookup_delete_eq. discriminate.
      * exists (calls ++ new). rewrite Ht, <- app_assoc.
        split; [reflexivity|]. split; [apply Forall_app; auto|].
        intros o0 Ho0. congruence.
      * exists (calls ++ new). rewrite Ht, <- app_assoc.
        split; [reflexivity|]. split; [apply Forall_app; auto|].
        intros o0 Ho0. congruence.
      * exists (calls ++ new). rewrite Ht, <- app_assoc.
        split; [reflexivity|]. split; [apply Forall_app; auto|].
        intros o0 Ho0. congruence.
    + (* no memory for the pixels: the constructor throws *)
      cbn [world_of trace objects].
      exists calls. split; [reflexivity|]. split; [exact Hcalls|].
      intros o0. rewrite lookup_delete_eq. discriminate.
  - (* a build without WIN32: the null pointer is dereferenced *)
    rewrite main_other_eq. cbn [world_of trace objects].
    exists []. rewrite app_nil_r. split; [reflexivity|]. split; [constructor|].
    intros o0. rewrite Hfresh. discriminate.
Qed.

(** * Witnesses and worked examples *)

Lemma PollEvents_drains_queue_witness :
  exists fuel retrieved w',
    PollEvents test_env fuel 1%positive poll_world = Ok tt w'
    /\ queue w' = []
    /\ retrieved = queue poll_world ++ flat_map (posted_by test_env) retrieved
    /\ trace w' = trace poll_world ++ flat_map iteration_calls retrieved ++ [peek_call]
    /\ IsOpen 1%positive w' = Ok (true && negb (existsb is_quit retrieved)) w'.
Proof.
  destruct (PollEvents_drains_queue test_env 1%positive
              (constructed test_env "Test" 1%positive 2 2) poll_world)
    as ((fuel & rs & w' & H1 & H2 & H3 & H4 & H5 & _) & _).
  - exact test_env_settles.
  - reflexivity.
  - exists fuel, rs, w'. auto.
Defined.

Lemma IsOpen_never_reopens_witness :
  exists fuel w1,
    PollEvents test_env fuel 1%positive quit_world = Ok tt w1
    /\ IsOpen 1%positive w1 = Ok false w1
    /\ forall ops, exists fuel' w2,
         run_ops test_env fuel' 1%positive ops w1 = Ok tt w2
         /\ IsOpen 1%positive w2 = Ok false w2.
Proof.
  destruct (IsOpen_never_reopens test_env 1%positive
              (constructed test_env "Test" 1%positive 2 2) quit_world)
    as (Hquit & _).
  - exact test_env_settles.
  - reflexivity.
  - apply Hquit. exists (quit_message 0). split; [|reflexivity].
    cbn. apply list_elem_of_further, list_elem_of_here.
Defined.

Lemma surface_attributes_are_fixed_witness :
  exists o',
    objects (world_of (run_ops test_env 10 1%positive
                         [OpPollEvents; OpDraw; OpGetTitle; OpGetWidth] poll_world))
      !! 1%positive = Some o'
    /\ m_title o' = 1%positive
    /\ m_width o' = 2
    /\ m_height o' = 2
    /\ GetWidth 1%positive poll_world = Ok 2 poll_world.
Proof.
  destruct (surface_attributes_are_fixed test_env 1%positive
              (constructed test_env "Test" 1%positive 2 2) poll_world)
    as (Hfixed & _ & HW & _).
  - reflexivity.
  - destruct (Hfixed [OpPollEvents; OpDraw; OpGetTitle; OpGetWidth] 10%nat)
      as (o' & Ho' & Ht & Hw & Hh & _).
    exists o'. auto.
Defined.

Lemma presentation_descriptor_witness :
  exists o,
    objects (world_of (Rasterizer.Create test_env true 1%positive 4 3 test_world))
      !! 1%positive = Some o
    /\ m_bmi o =
         mkBITMAPINFO (mkBITMAPINFOHEADER 40 4 (- 3) 1 32 BI_RGB 0 0 0 0 0) 0
    /\ biHeight (bmiHeader (m_bmi o)) = - m_height o.
Proof.
  destruct (presentation_descriptor test_env 1%positive "Test"%string 4 3 test_world
              1%positive
              (world_of (Rasterizer.Create test_env true 1%positive 4 3 test_world)))
    as (o & Ho & Hbmi & Hneg & _).
  - reflexivity.
  - reflexivity.
  - exists o. auto.
Defined.

(** ** Worked runs *)

(** The constructor for ("Test", 4, 3). *)
Example Create_4_by_3 :
  match Rasterizer.Create test_env true 1%positive 4 3 test_world with
  | Ok window w' => Some (window, objects w' !! 1%positive, trace w')
  | _ => None
  end
  = Some (Some 1%positive,
          Some (mkWindow 1%positive 4 3 true (mkWindowHandle 1000)
                  [4278190335; 4278190335; 4278190335; 4278190335;
                   4278190335; 4278190335; 4278190335; 4278190335;
                   4278190335; 4278190335; 4278190335; 4278190335]
                  (mkBITMAPINFO (mkBITMAPINFOHEADER 40 4 (-3) 1 32 0 0 0 0 0 0) 0)),
          [CGetModuleHandle; CRegisterClass "Window Class" 7; CGetModuleHandle;
           CCreateWindowEx 0 "Window Class" "Test" 13565952
             (-2147483648) (-2147483648) 4 3 7;
           CShowWindow 1000 5]).
Proof. vm_compute. reflexivity. Qed.

(** A key stroke and a destroy notification: the character message and the
    quit message they cause are retrieved by the same call, which closes
    the surface. *)
Example PollEvents_key_then_destroy :
  match PollEvents test_env 5 1%positive poll_world with
  | Ok _ w' => Some (queue w', m_is_open <$> objects w' !! 1%positive, trace w')
  | _ => None
  end
  = Some ([], Some false,
          [peek_call; CTranslateMessage (mkMSG 1000 WM_KEYDOWN 65 0);
           CDispatchMessage (mkMSG 1000 WM_KEYDOWN 65 0);
           CDefWindowProc 1000 WM_KEYDOWN 65 0;
           peek_call; CTranslateMessage (mkMSG 1000 WM_DESTROY 0 0);
           CDispatchMessage (mkMSG 1000 WM_DESTROY 0 0);
           CPostQuitMessage 0;
           peek_call; CTranslateMessage (mkMSG 1000 WM_CHAR 65 0);
           CDispatchMessage (mkMSG 1000 WM_CHAR 65 0);
           CDefWindowProc 1000 WM_CHAR 65 0;
           peek_call; CTranslateMessage (quit_message 0);
           CDispatchMessage (quit_message 0);
           peek_call]).
Proof. vm_compute. reflexivity. Qed.

(** The user closes the window: one call takes the surface from WM_CLOSE
    through WM_DESTROY to WM_QUIT and closes it. *)
Example PollEvents_on_close :
  match PollEvents closing_env 5 1%positive
          (mkWorld ∅ {[ 1%positive := constructed closing_env "Test" 1%positive 2 2 ]}
             [mkMSG 1000 WM_CLOSE 0 0] []) with
  | Ok _ w' => Some (queue w', m_is_open <$> objects w' !! 1%positive, trace w')
  | _ => None
  end
  = Some ([], Some false,
          [peek_call; CTranslateMessage (mkMSG 1000 WM_CLOSE 0 0);
           CDispatchMessage (mkMSG 1000 WM_CLOSE 0 0);
           CDefWindowProc 1000 WM_CLOSE 0 0;
           peek_call; CTranslateMessage (mkMSG 1000 WM_DESTROY 0 0);
           CDispatchMessage (mkMSG 1000 WM_DESTROY 0 0);
           CPostQuitMessage 0;
           peek_call; CTranslateMessage (quit_message 0);
           CDispatchMessage (quit_message 0);
           peek_call]).
Proof. vm_compute. reflexivity. Qed.

(** Too small a bound leaves the call unfinished. *)
Example PollEvents_out_of_fuel :
  match PollEvents test_env 4 1%positive poll_world with
  | OutOfFuel _ => true
  | _ => false
  end = true.
Proof. vm_compute. reflexivity. Qed.

(** A run of [main]: nothing arrives before the first poll, a key stroke
    before the second, the destroy notification before the third.  The
    third iteration still draws; then the loop ends, the window is
    destroyed and the surface released. *)
Example main_three_frames :
  match Runtime.main test_env true 10
          [[]; [mkMSG 1000 WM_KEYDOWN 65 0]; [mkMSG 1000 WM_DESTROY 0 0]; []]
          (mkWorld ∅ ∅ [] []) with
  | Ok code w' =>
      Some (code, count_blits (trace w'), last (trace w'), queue w',
            objects w' !! 1%positive)
  | _ => None
  end
  = Some (0, 3%nat, Some (CDestroyWindow 1000), [], None).
Proof. vm_compute. reflexivity. Qed.

(** Without the allocation the constructor throws and [main] ends there. *)
Example main_without_memory :
  match Runtime.main
          (mkEnv 7 (fun _ _ _ => 1000) (fun _ => 55) (fun _ => [])
             (fun _ _ _ _ => (0, [])) (fun _ => false))
          true 10 [[]] (mkWorld ∅ ∅ [] []) with
  | Throws e w' => Some (e, count_blits (trace w'), objects w' !! 1%positive)
  | _ => None
  end
  = Some (bad_alloc, 0%nat, None).
Proof. vm_compute. reflexivity. Qed.

(** ** The title is an alias *)

(** [m_title] is a reference member: the surface does not own its title.
    When the caller's string goes away, reading the title through the
    surface is undefined. *)
Lemma title_dangles_with_the_callers_string this o w :
  objects w !! this = Some o ->
  (do r <- GetTitle this; deref r)
    (world_of (Std.delete_string (m_title o) w))
  = Undefined (world_of (Std.delete_string (m_title o) w)).
Proof.
  intros Ho. unfold Std.delete_string. cbn [world_of].
  unfold bind.
  rewrite (GetTitle_eq this o
             (mkWorld (delete (m_title o) (strings w)) (objects w) (queue w) (trace w))
             Ho).
  unfold deref. cbn [strings]. rewrite lookup_delete_eq. reflexivity.
Qed.

(** In [main] the title is a temporary that ends with the statement which
    creates the surface: when the loop starts the reference dangles. *)
Lemma main_title_dangles env w o :
  objects (loop_start env w) !! fresh (dom (objects w)) = Some o ->
  strings (loop_start env w) !! m_title o = None.
Proof.
  unfold loop_start. cbn [objects strings]. rewrite lookup_insert_eq.
  intros [= <-]. cbn [constructed m_title]. apply lookup_delete_eq.
Qed.

(** * Further properties of the surface *)

(** ** Only the surface itself changes on the heap *)

Section HeapKept.

Variable env : Env.

Lemma heap_kept_refl this o w :
  objects w !! this = Some o -> heap_kept this o w w.
Proof.
  intros Ho. exists o. split; [apply frozen_refl|].
  symmetry. apply insert_id. exact Ho.
Qed.

Lemma heap_kept_lookup this o w w' :
  heap_kept this o w w' ->
  exists o', frozen o o' /\ objects w' !! this = Some o'.
Proof.
  intros (o' & Hf & Hobj). exists o'. split; [exact Hf|].
  rewrite Hobj. apply lookup_insert_eq.
Qed.

Lemma heap_kept_trans this o w w1 w2 :
  heap_kept this o w w1 ->
  (forall o1, objects w1 !! this = Some o1 -> frozen o o1 -> heap_kept this o1 w1 w2) ->
  heap_kept this o w w2.
Proof.
  intros (o1 & Hf1 & Hobj1) Hnext.
  destruct (Hnext o1) as (o2 & Hf2 & Hobj2).
  - rewrite Hobj1. apply lookup_insert_eq.
  - exact Hf1.
  - exists o2. split; [eauto using frozen_trans|].
    rewrite Hobj2, Hobj1. apply insert_insert_eq.
Qed.

Lemma PollEvents_heap fuel this o w :
  objects w !! this = Some o ->
  heap_kept this o w (world_of (PollEvents env fuel this w)).
Proof.
  intros Ho.
  destruct (PollEvents_polled env fuel this o w Ho) as (rs & _ & Hobj & _).
  destruct (existsb is_quit rs).
  - exists (set_is_open false o). split; [apply frozen_close|exact Hobj].
  - exists o. split; [apply frozen_refl|].
    rewrite Hobj. symmetry. apply insert_id. exact Ho.
Qed.



Lemma main_loop_heap poll_fuel this arrivals : forall o w,
  objects w !! this = Some o ->
  heap_kept this o w
    (world_of (Runtime.main_loop env poll_fuel arrivals (Some this) w)).
Proof.
  induction arrivals as [|ms arrivals IH]; intros o w Ho.
  - cbn [Runtime.main_loop Rasterizer.arrow]. unfold bind.
    rewrite (IsOpen_eq this o w Ho).
    destruct (m_is_open o); apply heap_kept_refl; exact Ho.
  - cbn [Runtime.main_loop Rasterizer.arrow]. unfold bind at 1.
    rewrite (IsOpen_eq this o w Ho).
    destruct (m_is_open o); [|apply heap_kept_refl; exact Ho].
    unfold bind at 1. unfold post at 1.
    eapply (heap_kept_trans this o w
              (mkWorld (strings w) (objects w) (queue w ++ ms) (trace w))).
    { exact (heap_kept_refl this o w Ho). }
    intros oa Hoa _. unfold bind at 1.
    pose proof (PollEvents_heap poll_fuel this oa _ Hoa) as Hpoll.
    destruct (PollEvents env poll_fuel this _) as [[] w1|e w1|w1|w1];
      cbn [world_of] in *; try exact Hpoll.
    eapply heap_kept_trans; [exact Hpoll|]. intros o1 Ho1 _.
    unfold bind at 1. rewrite (Draw_eq env this o1 w1 Ho1).
    eapply (heap_kept_trans this o1 w1
              (mkWorld (strings w1) (objects w1) (queue w1)
                 (trace w1 ++ draw_calls env o1))).
    { exact (heap_kept_refl this o1 w1 Ho1). }
    intros o2 Ho2 _. apply IH. exact Ho2.
Qed.

End HeapKept.

(** ** Construction, use and destruction *)

(** X1.  When sizing or allocating the framebuffer throws, the factory
    passes the exception on and gives the storage of the object back: no
    object and no string differ from before the call.  The native window,
    however, was created and shown by then, and nothing destroys it.  The
    exception is [length_error] exactly for a negative product of the
    dimensions and [bad_alloc] when the allocator refuses a positive one. *)
Theorem Create_throwing_frees_the_object_not_the_window
    env title text width height w e w' :
  strings w !! title = Some text ->
  Rasterizer.Create env true title width height w = Throws e w' ->
  w' = mkWorld (strings w) (objects w) (queue w)
         (trace w ++ ctor_calls env text width height)
  /\ CCreateWindowEx 0 CLASS_NAME text WS_OVERLAPPEDWINDOW
       CW_USEDEFAULT CW_USEDEFAULT width height (os_hInstance env) ∈ trace w'
  /\ CShowWindow (os_CreateWindowEx env text width height) SW_SHOW ∈ trace w'
  /\ (forall h, CDestroyWindow h ∉ ctor_calls env text width height)
  /\ ((e = length_error /\ width * height < 0)
      \/ (e = bad_alloc /\ 0 < width * height
          /\ os_alloc env (4 * (width * height)) = false)).
Proof.
  intros Htitle. rewrite (Create_eq env title width height w text Htitle). cbv zeta.
  assert (forall o calls,
            Rasterizer.release_in (fresh (dom (objects w)))
              (with_object (fresh (dom (objects w))) o calls w)
            = mkWorld (strings w) (objects w) (queue w) (trace w ++ calls)) as Hrel.
  { intros o calls. unfold Rasterizer.release_in, with_object.
    cbn [strings objects queue trace]. f_equal.
    apply delete_insert_id. apply not_elem_of_dom, is_fresh. }
  assert (forall h, CDestroyWindow h ∉ ctor_calls env text width height) as Hnone.
  { intros h Hin. unfold ctor_calls in Hin.
    repeat (apply elem_of_cons in Hin as [Hin|Hin]; [discriminate|]).
    inversion Hin. }
  assert (forall tr,
            CCreateWindowEx 0 CLASS_NAME text WS_OVERLAPPEDWINDOW
              CW_USEDEFAULT CW_USEDEFAULT width height (os_hInstance env)
              ∈ tr ++ ctor_calls env text width height
            /\ CShowWindow (os_CreateWindowEx env text width height) SW_SHOW
               ∈ tr ++ ctor_calls env text width height) as Hin.
  { intros tr. unfold ctor_calls. split; apply elem_of_app; right.
    - do 3 apply list_elem_of_further. apply list_elem_of_here.
    - do 4 apply list_elem_of_further. apply list_elem_of_here. }
  destruct (Int.in_range (width * height)); [|discriminate].
  destruct (Z.ltb_spec (width * height) 0).
  - intros [= <- <-]. rewrite Hrel. cbn [trace].
    destruct (Hin (trace w)). auto 10.
  - destruct (Z.eqb_spec (width * height) 0); cbn [orb].
    + destruct (Int.in_range (- height)); discriminate.
    + destruct (os_alloc env (4 * (width * height))) eqn:Halloc.
      * destruct (Int.in_range (- height)); discriminate.
      * intros [= <- <-]. rewrite Hrel. cbn [trace].
        destruct (Hin (trace w)). repeat split; auto. right. repeat split; auto. lia.
Qed.

Lemma Create_throwing_frees_the_object_not_the_window_witness :
  world_of (Rasterizer.Create test_env true 1%positive (-1) 1 test_world)
  = mkWorld (strings test_world) (objects test_world) (queue test_world)
      (trace test_world ++ ctor_calls test_env "Test" (-1) 1)
  /\ CShowWindow 1000 SW_SHOW
     ∈ trace (world_of (Rasterizer.Create test_env true 1%positive (-1) 1 test_world)).
Proof.
  destruct (Create_throwing_frees_the_object_not_the_window test_env 1%positive
              "Test"%string (-1) 1 test_world length_error
              (world_of (Rasterizer.Create test_env true 1%positive (-1) 1 test_world)))
    as (H1 & _ & H3 & _).
  - reflexivity.
  - vm_compute. reflexivity.
  - split; [exact H1|exact H3].
Defined.



(** X3.  Nothing a client can do to a surface changes its pixels or its
    geometry: after any operations, however they end, [Draw] returns and
    hands [StretchDIBits] the rectangle (0, 0, width, height) as both
    destination and source, a buffer of exactly [width * height] pixels,
    all 0xFF0000FF, and a descriptor of width [width], height [- height]
    and 32 bits per pixel, so the call never reads past the buffer. *)
Theorem Draw_blits_exactly_the_framebuffer
    env title text width height w this w1 ops fuel :
  strings w !! title = Some text ->
  Rasterizer.Create env true title width height w = Ok (Some this) w1 ->
  exists fb bmi,
    Draw env this (world_of (run_ops env fuel this ops w1)) =
      Ok tt
        (mkWorld (strings (world_of (run_ops env fuel this ops w1)))
           (objects (world_of (run_ops env fuel this ops w1)))
           (queue (world_of (run_ops env fuel this ops w1)))
           (trace (world_of (run_ops env fuel this ops w1)) ++
            [ CGetDC (os_CreateWindowEx env text width height);
              CStretchDIBits (os_GetDC env (os_CreateWindowEx env text width height))
                0 0 width height 0 0 width height fb bmi DIB_RGB_COLORS SRCCOPY;
              CReleaseDC (os_CreateWindowEx env text width height)
                (os_GetDC env (os_CreateWindowEx env text width height)) ]))
    /\ fb = replicate (Z.to_nat (width * height)) 0xFF0000FF
    /\ Z.of_nat (length fb) = width * height
    /\ biWidth (bmiHeader bmi) = width
    /\ biHeight (bmiHeader bmi) = - height
    /\ biBitCount (bmiHeader bmi) = 32.
Proof.
  intros Htitle HC.
  destruct (Create_Ok_inv env title width height w text _ w1 Htitle HC)
    as (Hthis & -> & Hp & _).
  injection Hthis as ->.
  set (this := fresh (dom (objects w))) in *.
  set (o := constructed env text title width height) in *.
  assert (objects (with_object this o (ctor_calls env text width height) w) !! this
          = Some o) as Ho by apply with_object_lookup.
  pose proof (run_ops_kept env fuel this ops o _ Ho)
    as (_ & (o' & Ho' & Hw & Hwd & Hht & Hh & Hfb & Hbmi & _) & _).
  exists (m_framebuffer o'), (m_bmi o').
  split.
  - rewrite (Draw_eq env this o' _ Ho'). unfold draw_calls, blit_call.
    rewrite Hwd, Hht, Hh. reflexivity.
  - rewrite Hfb, Hbmi. unfold o, constructed. cbn [m_framebuffer m_bmi bmiHeader
      biWidth biHeight biBitCount].
    rewrite length_replicate, Z2Nat.id by lia. auto.
Qed.

Lemma Draw_blits_exactly_the_framebuffer_witness :
  exists fb bmi,
    CStretchDIBits 55 0 0 2 2 0 0 2 2 fb bmi DIB_RGB_COLORS SRCCOPY
    ∈ trace
        (world_of
           (Draw test_env 1%positive
              (world_of
                 (run_ops test_env 10 1%positive [OpPollEvents; OpDraw; OpPollEvents]
                    (world_of
                       (Rasterizer.Create test_env true 1%positive 2 2 test_world))))))
    /\ fb = [0xFF0000FF; 0xFF0000FF; 0xFF0000FF; 0xFF0000FF]
    /\ biHeight (bmiHeader bmi) = -2.
Proof.
  destruct (Draw_blits_exactly_the_framebuffer test_env 1%positive "Test"%string
              2 2 test_world 1%positive
              (world_of (Rasterizer.Create test_env true 1%positive 2 2 test_world))
              [OpPollEvents; OpDraw; OpPollEvents] 10%nat)
    as (fb & bmi & HD & Hfb & _ & _ & Hh & _).
  - reflexivity.
  - vm_compute. reflexivity.
  - exists fb, bmi. rewrite HD. cbn [world_of trace]. split; [|auto].
    apply elem_of_app. right. apply list_elem_of_further, list_elem_of_here.
Defined.

(** X4.  The surface does not own its title: [GetTitle] returns the very
    reference the factory was given.  What is read through it is whatever
    the caller's string holds at that moment, and reading it after the
    caller's string has ended is undefined. *)
Theorem GetTitle_aliases_the_callers_string
    env title text width height w this w1 :
  strings w !! title = Some text ->
  Rasterizer.Create env true title width height w = Ok (Some this) w1 ->
  GetTitle this w1 = Ok title w1
  /\ (forall text',
        (do r <- GetTitle this; deref r)
          (mkWorld (<[title := text']> (strings w1)) (objects w1) (queue w1) (trace w1))
        = Ok text'
            (mkWorld (<[title := text']> (strings w1)) (objects w1) (queue w1)
               (trace w1)))
  /\ (do r <- GetTitle this; deref r) (world_of (Std.delete_string title w1))
     = Undefined (world_of (Std.delete_string title w1)).
Proof.
  intros Htitle HC.
  destruct (Create_Ok_inv env title width height w text _ w1 Htitle HC)
    as (Hthis & -> & _ & _).
  injection Hthis as ->.
  set (this := fresh (dom (objects w))) in *.
  set (o := constructed env text title width height) in *.
  set (w1 := with_object this o (ctor_calls env text width height) w).
  assert (forall s, objects (mkWorld s (objects w1) (queue w1) (trace w1)) !! this
                    = Some o) as Ho by (intros s; apply lookup_insert_eq).
  split; [exact (GetTitle_eq this o w1 (Ho (strings w1)))|]. split.
  - intros text'. unfold bind. rewrite (GetTitle_eq this o _ (Ho _)).
    unfold deref. cbn [strings o constructed m_title].
    rewrite lookup_insert_eq. reflexivity.
  - unfold Std.delete_string. cbn [world_of]. unfold bind.
    rewrite (GetTitle_eq this o _ (Ho _)).
    unfold deref. cbn [strings o constructed m_title].
    rewrite lookup_delete_eq. reflexivity.
Qed.

Lemma GetTitle_aliases_the_callers_string_witness :
  GetTitle 1%positive (world_of (Rasterizer.Create test_env true 1%positive 4 3 test_world))
  = Ok 1%positive (world_of (Rasterizer.Create test_env true 1%positive 4 3 test_world))
  /\ (do r <- GetTitle 1%positive; deref r)
       (world_of
          (Std.delete_string 1%positive
             (world_of (Rasterizer.Create test_env true 1%positive 4 3 test_world))))
     = Undefined
         (world_of
            (Std.delete_string 1%positive
               (world_of (Rasterizer.Create test_env true 1%positive 4 3 test_world)))).
Proof.
  destruct (GetTitle_aliases_the_callers_string test_env 1%positive "Test"%string
              4 3 test_world 1%positive
              (world_of (Rasterizer.Create test_env true 1%positive 4 3 test_world)))
    as (H1 & _ & H3).
  - reflexivity.
  - vm_compute. reflexivity.
  - split; [exact H1|exact H3].
Defined.

(** X5.  Two surfaces created one after the other are different objects,
    and constructing the second leaves the first as it was.  Every
    construction goes through the same five calls again, the registration
    of the window class included. *)
Theorem Create_twice_gives_two_surfaces
    env title1 text1 width1 height1 title2 text2 width2 height2 w p1 w1 p2 w2 :
  strings w !! title1 = Some text1 ->
  strings w !! title2 = Some text2 ->
  Rasterizer.Create env true title1 width1 height1 w = Ok (Some p1) w1 ->
  Rasterizer.Create env true title2 width2 height2 w1 = Ok (Some p2) w2 ->
  p1 <> p2
  /\ objects w2 !! p1 = Some (constructed env text1 title1 width1 height1)
  /\ objects w2 !! p2 = Some (constructed env text2 title2 width2 height2)
  /\ trace w2 = trace w ++ ctor_calls env text1 width1 height1
                        ++ ctor_calls env text2 width2 height2
  /\ CRegisterClass CLASS_NAME (os_hInstance env) ∈ ctor_calls env text1 width1 height1
  /\ CRegisterClass CLASS_NAME (os_hInstance env) ∈ ctor_calls env text2 width2 height2.
Proof.
  intros Ht1 Ht2 HC1 HC2.
  destruct (Create_Ok_inv env title1 width1 height1 w text1 _ w1 Ht1 HC1)
    as (Hp1 & -> & _ & _).
  injection Hp1 as ->.
  assert (strings (with_object (fresh (dom (objects w)))
                     (constructed env text1 title1 width1 height1)
                     (ctor_calls env text1 width1 height1) w) !! title2 = Some text2)
    as Ht2' by exact Ht2.
  destruct (Create_Ok_inv env title2 width2 height2 _ text2 _ w2 Ht2' HC2)
    as (Hp2 & -> & _ & _).
  injection Hp2 as ->.
  set (q1 := fresh (dom (objects w))).
  set (q2 := fresh (dom (objects (with_object q1 _ _ w)))).
  assert (q1 <> q2) as Hne.
  { intros Heq. apply (is_fresh (dom (objects (with_object q1
        (constructed env text1 title1 width1 height1)
        (ctor_calls env text1 width1 height1) w)))).
    fold q2. rewrite <- Heq. apply elem_of_dom. eexists. apply with_object_lookup. }
  split; [exact Hne|]. unfold with_object. cbn [objects trace].
  split; [|split; [apply lookup_insert_eq|split]].
  - rewrite lookup_insert_ne by congruence. apply lookup_insert_eq.
  - rewrite <- app_assoc. reflexivity.
  - split; unfold ctor_calls; apply list_elem_of_further, list_elem_of_here.
Qed.

Lemma Create_twice_gives_two_surfaces_witness :
  1%positive <> 2%positive
  /\ objects
       (world_of
          (Rasterizer.Create test_env true 1%positive 2 2
             (world_of (Rasterizer.Create test_env true 1%positive 4 3 test_world))))
       !! 1%positive
     = Some (constructed test_env "Test" 1%positive 4 3).
Proof.
  destruct (Create_twice_gives_two_surfaces test_env
              1%positive "Test"%string 4 3 1%positive "Test"%string 2 2
              test_world 1%positive
              (world_of (Rasterizer.Create test_env true 1%positive 4 3 test_world))
              2%positive
              (world_of
                 (Rasterizer.Create test_env true 1%positive 2 2
                    (world_of (Rasterizer.Create test_env true 1%positive 4 3
                                 test_world)))))
    as (H1 & H2 & _).
  - reflexivity.
  - reflexivity.
  - vm_compute. reflexivity.
  - vm_compute. reflexivity.
  - split; [exact H1|exact H2].
Defined.

(** ** More about the message loop *)

(** What a returned [PollEvents] call has retrieved. *)
Lemma PollEvents_returned env fuel this o w w' :
  objects w !! this = Some o ->
  PollEvents env fuel this w = Ok tt w' ->
  exists retrieved,
    retrieved = queue w ++ flat_map (posted_by env) retrieved
    /\ queue w' = []
    /\ strings w' = strings w
    /\ objects w' = (if existsb is_quit retrieved
                     then <[this := set_is_open false o]> (objects w)
                     else objects w)
    /\ trace w' = trace w ++ flat_map iteration_calls retrieved ++ [peek_call].
Proof.
  intros Ho Hrun.
  destruct (PollEvents_polled env fuel this o w Ho) as (rs & Hpolled).
  rewrite Hrun in Hpolled.
  destruct Hpolled as (Hs & Hobj & Hqueue & Htrace). cbn [world_of] in *.
  destruct Htrace as [(_ & Hempty & Ht)|(Habsurd & _)]; [|discriminate].
  rewrite Hempty, app_nil_r in Hqueue. exists rs. auto.
Qed.

(** X6.  With two live surfaces on one thread, the quit message closes only
    the surface whose [PollEvents] retrieves it.  That call empties the
    queue of the thread, so the other surface stays as it was, open if it
    was open, and its own [PollEvents] finds nothing to retrieve. *)
Theorem quit_closes_only_the_polling_surface env p1 p2 o1 o2 w :
  settles env ->
  p1 <> p2 ->
  objects w !! p1 = Some o1 ->
  objects w !! p2 = Some o2 ->
  (exists m, m ∈ queue w /\ message m = WM_QUIT) ->
  exists fuel w1,
    PollEvents env fuel p1 w = Ok tt w1
    /\ IsOpen p1 w1 = Ok false w1
    /\ objects w1 !! p2 = Some o2
    /\ queue w1 = []
    /\ forall fuel',
         PollEvents env (S fuel') p2 w1 =
           Ok tt (mkWorld (strings w1) (objects w1) [] (trace w1 ++ [peek_call]))
         /\ IsOpen p2 (mkWorld (strings w1) (objects w1) [] (trace w1 ++ [peek_call]))
            = Ok (m_is_open o2)
                (mkWorld (strings w1) (objects w1) [] (trace w1 ++ [peek_call])).
Proof.
  intros Henv Hne Ho1 Ho2 (m & Hm & Hquit).
  destruct (PollEvents_terminates env p1 o1 w Henv Ho1) as (fuel & w1 & Hrun).
  destruct (PollEvents_returned env fuel p1 o1 w w1 Ho1 Hrun)
    as (rs & Hrs & Hempty & _ & Hobj & _).
  assert (existsb is_quit rs = true) as Hseen.
  { apply existsb_exists. exists m. split.
    - apply list_elem_of_In. rewrite Hrs. apply elem_of_app. auto.
    - unfold is_quit. apply Z.eqb_eq. exact Hquit. }
  rewrite Hseen in Hobj.
  assert (objects w1 !! p1 = Some (set_is_open false o1)) as Hp1
    by (rewrite Hobj; apply lookup_insert_eq).
  assert (objects w1 !! p2 = Some o2) as Hp2
    by (rewrite Hobj, lookup_insert_ne by exact Hne; exact Ho2).
  exists fuel, w1. split; [exact Hrun|].
  split; [exact (IsOpen_eq p1 _ w1 Hp1)|]. split; [exact Hp2|].
  split; [exact Hempty|]. intros fuel'.
  split; [exact (PollEvents_S_empty env fuel' p2 w1 Hempty)|].
  apply IsOpen_eq. exact Hp2.
Qed.

Lemma quit_closes_only_the_polling_surface_witness :
  exists fuel w1,
    PollEvents test_env fuel 1%positive
      (mkWorld ∅
         (<[2%positive := constructed test_env "Test" 1%positive 4 3]>
            {[ 1%positive := constructed test_env "Test" 1%positive 2 2 ]})
         [quit_message 0] [])
      = Ok tt w1
    /\ IsOpen 1%positive w1 = Ok false w1
    /\ objects w1 !! 2%positive = Some (constructed test_env "Test" 1%positive 4 3)
    /\ queue w1 = [].
Proof.
  destruct (quit_closes_only_the_polling_surface test_env 1%positive 2%positive
              (constructed test_env "Test" 1%positive 2 2)
              (constructed test_env "Test" 1%positive 4 3)
              (mkWorld ∅
                 (<[2%positive := constructed test_env "Test" 1%positive 4 3]>
                    {[ 1%positive := constructed test_env "Test" 1%positive 2 2 ]})
                 [quit_message 0] []))
    as (fuel & w1 & H1 & H2 & H3 & H4 & _).
  - exact test_env_settles.
  - discriminate.
  - reflexivity.
  - reflexivity.
  - exists (quit_message 0). split; [apply list_elem_of_here|reflexivity].
  - exists fuel, w1. auto.
Defined.

(** X7.  A destroy notification for a window closes the surface within the
    very [PollEvents] call that retrieves it: [WindowProc] posts the quit
    message, and the loop goes on until that one is retrieved too. *)
Theorem destroy_closes_within_the_same_poll env this o w :
  settles env ->
  objects w !! this = Some o ->
  (exists m, m ∈ queue w /\ message m = WM_DESTROY /\ hwnd m <> NULL) ->
  exists fuel w',
    PollEvents env fuel this w = Ok tt w'
    /\ IsOpen this w' = Ok false w'
    /\ queue w' = []
    /\ CPostQuitMessage 0 ∈ trace w'
    /\ CDispatchMessage (quit_message 0) ∈ trace w'.
Proof.
  intros Henv Ho (m & Hm & Hdestroy & Hwindow).
  destruct (PollEvents_terminates env this o w Henv Ho) as (fuel & w' & Hrun).
  destruct (PollEvents_returned env fuel this o w w' Ho Hrun)
    as (rs & Hrs & Hempty & _ & Hobj & Htrace).
  assert (In m rs) as Hmrs.
  { apply list_elem_of_In. rewrite Hrs. apply elem_of_app. auto. }
  assert (In (quit_message 0) (posted_by env m)) as Hposted.
  { unfold posted_by, handler_posts. apply in_or_app. right.
    destruct (Z.eqb_spec (hwnd m) NULL); [contradiction|].
    rewrite Hdestroy. cbn. auto. }
  assert (In (quit_message 0) rs) as Hquit.
  { apply list_elem_of_In. rewrite Hrs. apply elem_of_app. right.
    apply list_elem_of_In, in_flat_map. eauto. }
  assert (existsb is_quit rs = true) as Hseen.
  { apply existsb_exists. exists (quit_message 0). auto. }
  rewrite Hseen in Hobj.
  assert (objects w' !! this = Some (set_is_open false o)) as Ho'
    by (rewrite Hobj; apply lookup_insert_eq).
  exists fuel, w'. split; [exact Hrun|].
  split; [exact (IsOpen_eq this _ w' Ho')|]. split; [exact Hempty|].
  rewrite Htrace. split.
  - apply elem_of_app. right. apply elem_of_app. left.
    apply list_elem_of_In, in_flat_map. exists m. split; [exact Hmrs|].
    unfold iteration_calls, handler_calls.
    destruct (Z.eqb_spec (hwnd m) NULL); [contradiction|].
    rewrite Hdestroy. cbn. auto.
  - apply elem_of_app. right. apply elem_of_app. left.
    apply list_elem_of_In, in_flat_map. exists (quit_message 0).
    split; [exact Hquit|]. unfold iteration_calls. cbn. auto.
Qed.

Lemma destroy_closes_within_the_same_poll_witness :
  exists fuel w',
    PollEvents test_env fuel 1%positive poll_world = Ok tt w'
    /\ IsOpen 1%positive w' = Ok false w'
    /\ queue w' = [].
Proof.
  destruct (destroy_closes_within_the_same_poll test_env 1%positive
              (constructed test_env "Test" 1%positive 2 2) poll_world)
    as (fuel & w' & H1 & H2 & H3 & _).
  - exact test_env_settles.
  - reflexivity.
  - exists (mkMSG 1000 WM_DESTROY 0 0).
    split; [apply list_elem_of_further, list_elem_of_here|].
    split; [reflexivity|discriminate].
  - exists fuel, w'. auto.
Defined.

(** ** More about the runtime *)

Lemma count_blits_app calls1 calls2 :
  count_blits (calls1 ++ calls2) = (count_blits calls1 + count_blits calls2)%nat.
Proof.
  induction calls1 as [|c calls1 IH]; [reflexivity|].
  destruct c; cbn [app count_blits]; rewrite IH; reflexivity.
Qed.

Lemma count_blits_polled retrieved :
  count_blits (flat_map iteration_calls retrieved ++ [peek_call]) = 0%nat.
Proof.
  induction retrieved as [|m rs IH]; [reflexivity|].
  cbn [flat_map]. rewrite <- app_assoc, count_blits_app, IH.
  unfold iteration_calls, handler_calls.
  destruct (hwnd m =? NULL); [|destruct (message m =? WM_DESTROY)]; reflexivity.
Qed.

Lemma main_loop_closed env poll_fuel arrivals this o w :
  objects w !! this = Some o ->
  m_is_open o = false ->
  Runtime.main_loop env poll_fuel arrivals (Some this) w = Ok tt w.
Proof.
  intros Ho Hclosed.
  destruct arrivals; cbn [Runtime.main_loop Rasterizer.arrow]; unfold bind;
    rewrite (IsOpen_eq this o w Ho), Hclosed; reflexivity.
Qed.

(** The iteration in which a quit message is there to be retrieved. *)
Lemma main_loop_quit_now env this o w ms :
  settles env ->
  objects w !! this = Some o ->
  m_is_open o = true ->
  (exists m, m ∈ queue w ++ ms /\ message m = WM_QUIT) ->
  exists poll_fuel retrieved,
    forall rest,
      Runtime.main_loop env poll_fuel (ms :: rest) (Some this) w =
        Ok tt
          (mkWorld (strings w) (<[this := set_is_open false o]> (objects w)) []
             (trace w ++ (flat_map iteration_calls retrieved ++ [peek_call])
                     ++ draw_calls env o)).
Proof.
  intros Henv Ho Hopen (m & Hm & Hquit).
  set (wa := mkWorld (strings w) (objects w) (queue w ++ ms) (trace w)).
  assert (objects wa !! this = Some o) as Hoa by exact Ho.
  destruct (PollEvents_terminates env this o wa Henv Hoa) as (fuel & w1 & Hrun).
  destruct (PollEvents_returned env fuel this o wa w1 Hoa Hrun)
    as (rs & Hrs & Hempty & Hs & Hobj & Htrace).
  assert (existsb is_quit rs = true) as Hseen.
  { apply existsb_exists. exists m. split.
    - apply list_elem_of_In. rewrite Hrs. apply elem_of_app. auto.
    - unfold is_quit. apply Z.eqb_eq. exact Hquit. }
  rewrite Hseen in Hobj. cbn [wa strings objects trace] in Hs, Hobj, Htrace.
  assert (objects w1 !! this = Some (set_is_open false o)) as Ho1
    by (rewrite Hobj; apply lookup_insert_eq).
  exists fuel, rs. intros rest.
  cbn [Runtime.main_loop Rasterizer.arrow]. unfold bind at 1.
  rewrite (IsOpen_eq this o w Ho), Hopen.
  unfold bind at 1. unfold post at 1. fold wa.
  unfold bind at 1. rewrite Hrun.
  unfold bind at 1. rewrite (Draw_eq env this _ w1 Ho1).
  rewrite (main_loop_closed env fuel rest this (set_is_open false o)).
  - rewrite Hs, Hobj, Hempty, Htrace, <- !app_assoc. reflexivity.
  - exact Ho1.
  - reflexivity.
Qed.

(** X8.  When the native window cannot be created, [main] constructs the
    surface all the same (showing the null window included), finds it
    closed, never polls, never draws and destroys nothing: it returns 0
    with the heap and the strings as they were. *)
Theorem main_returns_at_once_without_a_window env poll_fuel arrivals w :
  os_CreateWindowEx env "Rasterizer" 800 600 = NULL ->
  os_alloc env (4 * (800 * 600)) = true ->
  Runtime.main env true poll_fuel arrivals w =
    Ok 0 (mkWorld (strings w) (objects w) (queue w)
            (trace w ++
             [ CGetModuleHandle;
               CRegisterClass "Window Class" (os_hInstance env);
               CGetModuleHandle;
               CCreateWindowEx 0 "Window Class" "Rasterizer" WS_OVERLAPPEDWINDOW
                 CW_USEDEFAULT CW_USEDEFAULT 800 600 (os_hInstance env);
               CShowWindow NULL SW_SHOW ])).
Proof.
  intros Hfailed Halloc. rewrite main_win32_eq. cbv zeta. rewrite Halloc.
  set (this := fresh (dom (objects w))).
  set (title := fresh (dom (strings w))).
  set (o := constructed env "Rasterizer" title 800 600).
  assert (objects (loop_start env w) !! this = Some o) as Ho
    by apply lookup_insert_eq.
  assert (handle (m_window_handle o) = NULL) as Hh by exact Hfailed.
  assert (m_is_open o = false) as Hclosed.
  { unfold o, constructed. cbn [m_is_open]. rewrite Hfailed. reflexivity. }
  rewrite (main_loop_closed env poll_fuel arrivals this o _ Ho Hclosed).
  rewrite (WindowPtr_reset_eq this o _ Ho). rewrite Hh.
  unfold Rasterizer.release_in, loop_start, ctor_calls.
  cbn [strings objects queue trace negb Z.eqb NULL]. rewrite app_nil_r.
  fold this title. rewrite Hfailed.
  rewrite !delete_insert_id by (apply not_elem_of_dom, is_fresh).
  reflexivity.
Qed.

Lemma main_returns_at_once_without_a_window_witness :
  Runtime.main failing_env true 3 [[mkMSG 1000 WM_KEYDOWN 65 0]] (mkWorld ∅ ∅ [] []) =
    Ok 0 (mkWorld ∅ ∅ []
            [ CGetModuleHandle;
              CRegisterClass "Window Class" 7;
              CGetModuleHandle;
              CCreateWindowEx 0 "Window Class" "Rasterizer" WS_OVERLAPPEDWINDOW
                CW_USEDEFAULT CW_USEDEFAULT 800 600 7;
              CShowWindow NULL SW_SHOW ]).
Proof.
  apply (main_returns_at_once_without_a_window failing_env 3
           [[mkMSG 1000 WM_KEYDOWN 65 0]] (mkWorld ∅ ∅ [] [])).
  - reflexivity.
  - reflexivity.
Defined.

(** X9.  When a quit message is pending or arrives before a poll of the
    first iteration, [main] ends with that iteration: one [PollEvents]
    call, then still one frame drawn, then the loop is left, the window is
    destroyed as the last call and 0 is returned.  Whatever would arrive
    later is never polled, and the heap and the strings are as before. *)
Theorem main_ends_with_the_frame_in_which_quit_arrives env w ms :
  settles env ->
  os_alloc env (4 * (800 * 600)) = true ->
  os_CreateWindowEx env "Rasterizer" 800 600 <> NULL ->
  (exists m, m ∈ queue w ++ ms /\ message m = WM_QUIT) ->
  exists poll_fuel retrieved,
    count_blits (flat_map iteration_calls retrieved ++ [peek_call]) = 0%nat
    /\ forall rest,
         Runtime.main env true poll_fuel (ms :: rest) w =
           Ok 0
             (mkWorld (strings w) (objects w) []
                (trace w
                 ++ ctor_calls env "Rasterizer" 800 600
                 ++ (flat_map iteration_calls retrieved ++ [peek_call])
                 ++ draw_calls env
                      (constructed env "Rasterizer" (fresh (dom (strings w))) 800 600)
                 ++ [CDestroyWindow (os_CreateWindowEx env "Rasterizer" 800 600)])).
Proof.
  intros Henv Halloc Hcreated Hquit.
  set (this := fresh (dom (objects w))).
  set (title := fresh (dom (strings w))).
  set (o := constructed env "Rasterizer" title 800 600).
  assert (objects (loop_start env w) !! this = Some o) as Ho
    by apply lookup_insert_eq.
  assert (m_is_open o = true) as Hopen.
  { unfold o, constructed. cbn [m_is_open].
    destruct (Z.eqb_spec (os_CreateWindowEx env "Rasterizer" 800 600) NULL);
      [contradiction|reflexivity]. }
  destruct (main_loop_quit_now env this o (loop_start env w) ms Henv Ho Hopen Hquit)
    as (fuel & rs & Hloop).
  exists fuel, rs. split; [apply count_blits_polled|]. intros rest.
  rewrite main_win32_eq. cbv zeta. rewrite Halloc. fold this.
  rewrite (Hloop rest).
  rewrite (WindowPtr_reset_eq this (set_is_open false o))
    by apply lookup_insert_eq.
  unfold Rasterizer.release_in, loop_start.
  cbn [strings objects queue trace set_is_open m_window_handle o constructed handle].
  destruct (Z.eqb_spec (os_CreateWindowEx env "Rasterizer" 800 600) NULL);
    [contradiction|]. cbn [negb].
  fold this title. rewrite insert_insert_eq.
  rewrite !delete_insert_id by (apply not_elem_of_dom, is_fresh).
  rewrite <- !app_assoc. reflexivity.
Qed.

Lemma main_ends_with_the_frame_in_which_quit_arrives_witness :
  exists poll_fuel retrieved,
    forall rest,
      Runtime.main test_env true poll_fuel ([quit_message 0] :: rest)
        (mkWorld ∅ ∅ [] []) =
        Ok 0
          (mkWorld ∅ ∅ []
             (ctor_calls test_env "Rasterizer" 800 600
              ++ (flat_map iteration_calls retrieved ++ [peek_call])
              ++ draw_calls test_env (constructed test_env "Rasterizer" 1%positive 800 600)
              ++ [CDestroyWindow 1000])).
Proof.
  destruct (main_ends_with_the_frame_in_which_quit_arrives test_env
              (mkWorld ∅ ∅ [] []) [quit_message 0])
    as (fuel & rs & _ & Hmain).
  - exact test_env_settles.
  - reflexivity.
  - discriminate.
  - exists (quit_message 0). split; [apply list_elem_of_here|reflexivity].
  - exists fuel, rs. exact Hmain.
Defined.

(** X10.  Whenever [main] returns, it returns 0 from a WIN32 build, and it
    leaves nothing behind: the heap holds the objects it held before, the
    temporary title string is gone, and the window, if one was created,
    has been destroyed exactly once, by the last call made. *)
Theorem main_leaves_nothing_behind env WIN32 poll_fuel arrivals w code w' :
  Runtime.main env WIN32 poll_fuel arrivals w = Ok code w' ->
  WIN32 = true
  /\ code = 0
  /\ strings w' = strings w
  /\ objects w' = objects w
  /\ exists calls,
       trace w' =
         trace w ++ ctor_calls env "Rasterizer" 800 600 ++ calls
         ++ (if os_CreateWindowEx env "Rasterizer" 800 600 =? NULL then []
             else [CDestroyWindow (os_CreateWindowEx env "Rasterizer" 800 600)])
       /\ forall h, CDestroyWindow h ∉ calls.
Proof.
  destruct WIN32; [|rewrite main_other_eq; discriminate].
  rewrite main_win32_eq. cbv zeta.
  destruct (os_alloc env (4 * (800 * 600))); [|discriminate].
  set (this := fresh (dom (objects w))).
  set (title := fresh (dom (strings w))).
  set (o := constructed env "Rasterizer" title 800 600).
  assert (objects (loop_start env w) !! this = Some o) as Ho
    by apply lookup_insert_eq.
  pose proof (main_loop_kept env poll_fuel this arrivals o _ Ho)
    as (Hs & _ & (calls & Ht & Hb)).
  pose proof (main_loop_heap env poll_fuel this arrivals o _ Ho) as (o' & Hf & Hobj).
  destruct (Runtime.main_loop env poll_fuel arrivals (Some this) (loop_start env w))
    as [[] w3| | |]; try discriminate.
  cbn [world_of] in Hs, Ht, Hobj.
  assert (objects w3 !! this = Some o') as Ho'
    by (rewrite Hobj; apply lookup_insert_eq).
  rewrite (WindowPtr_reset_eq this o' w3 Ho'). intros [= <- <-].
  assert (handle (m_window_handle o') = os_CreateWindowEx env "Rasterizer" 800 600)
    as Hh.
  { destruct Hf as (_ & _ & _ & -> & _). reflexivity. }
  unfold Rasterizer.release_in. cbn [strings objects queue trace].
  unfold loop_start in Hs, Ht, Hobj. cbn [strings objects trace] in Hs, Ht, Hobj.
  fold this title in Hs, Ht, Hobj.
  split; [reflexivity|]. split; [reflexivity|]. split; [|split].
  - rewrite Hs. apply delete_insert_id, not_elem_of_dom, is_fresh.
  - rewrite Hobj, insert_insert_eq.
    apply delete_insert_id, not_elem_of_dom, is_fresh.
  - exists calls. split.
    + rewrite Ht, Hh, <- !app_assoc.
      destruct (os_CreateWindowEx env "Rasterizer" 800 600 =? NULL); reflexivity.
    + intros h Hin. rewrite Forall_forall in Hb. exact (Hb _ Hin).
Qed.

Lemma main_leaves_nothing_behind_witness :
  strings (world_of (Runtime.main failing_env true 3 [[]] (mkWorld ∅ ∅ [] []))) = ∅
  /\ objects (world_of (Runtime.main failing_env true 3 [[]] (mkWorld ∅ ∅ [] []))) = ∅.
Proof.
  destruct (main_leaves_nothing_behind failing_env true 3 [[]] (mkWorld ∅ ∅ [] []) 0
              (world_of (Runtime.main failing_env true 3 [[]] (mkWorld ∅ ∅ [] []))))
    as (_ & _ & H3 & H4 & _).
  - vm_compute. reflexivity.
  - split; [exact H3|exact H4].
Defined.

(** X11.  In [main] the title is a temporary string that ends with the
    statement creating the surface.  The loop therefore runs on a surface
    whose title reference dangles: however far the loop is followed, the
    string the surface refers to does not exist, and reading the title
    would be undefined. *)
Theorem main_loop_runs_with_a_dangling_title env poll_fuel arrivals w :
  os_alloc env (4 * (800 * 600)) = true ->
  Runtime.main env true poll_fuel arrivals w =
    (run Runtime.main_loop env poll_fuel arrivals (Some (fresh (dom (objects w))));
     run Rasterizer.WindowPtr_reset (Some (fresh (dom (objects w))));
     ret 0) (loop_start env w)
  /\ exists o,
       objects (world_of (Runtime.main_loop env poll_fuel arrivals
                            (Some (fresh (dom (objects w)))) (loop_start env w)))
         !! fresh (dom (objects w)) = Some o
       /\ strings (world_of (Runtime.main_loop env poll_fuel arrivals
                               (Some (fresh (dom (objects w)))) (loop_start env w)))
            !! m_title o = None
       /\ (do r <- GetTitle (fresh (dom (objects w))); deref r)
            (world_of (Runtime.main_loop env poll_fuel arrivals
                         (Some (fresh (dom (objects w)))) (loop_start env w)))
          = Undefined
              (world_of (Runtime.main_loop env poll_fuel arrivals
                           (Some (fresh (dom (objects w)))) (loop_start env w))).
Proof.
  intros Halloc. split.
  - rewrite main_win32_eq. cbv zeta. rewrite Halloc. unfold bind.
    destruct (Runtime.main_loop env poll_fuel arrivals _ _) as [[] w3| | |];
      reflexivity.
  - set (this := fresh (dom (objects w))).
    set (title := fresh (dom (strings w))).
    set (o := constructed env "Rasterizer" title 800 600).
    assert (objects (loop_start env w) !! this = Some o) as Ho
      by apply lookup_insert_eq.
    pose proof (main_loop_kept env poll_fuel this arrivals o _ Ho)
      as (Hs & (o' & Ho' & Ht & _) & _).
    assert (strings (world_of (Runtime.main_loop env poll_fuel arrivals (Some this)
                                 (loop_start env w))) !! m_title o' = None) as Hgone.
    { rewrite Hs, Ht. unfold loop_start. cbn [strings o constructed m_title].
      apply lookup_delete_eq. }
    exists o'. split; [exact Ho'|]. split; [exact Hgone|].
    unfold bind. rewrite (GetTitle_eq this o' _ Ho'). unfold deref.
    rewrite Hgone. reflexivity.
Qed.

Lemma main_loop_runs_with_a_dangling_title_witness :
  exists o,
    objects (world_of (Runtime.main_loop test_env 5 [[]; []] (Some 1%positive)
                         (loop_start test_env (mkWorld ∅ ∅ [] []))))
      !! 1%positive = Some o
    /\ strings (world_of (Runtime.main_loop test_env 5 [[]; []] (Some 1%positive)
                            (loop_start test_env (mkWorld ∅ ∅ [] []))))
         !! m_title o = None.
Proof.
  destruct (main_loop_runs_with_a_dangling_title test_env 5 [[]; []]
              (mkWorld ∅ ∅ [] []))
    as (_ & o & Ho & Hgone & _).
  - reflexivity.
  - exists o. split; [exact Ho|exact Hgone].
Defined.

(** * The earlier program: the pixel value and the fill loops *)

Module LegacyFacts.
Import Legacy.

Lemma to_int_congruent z : exists k, to_int z = z + 2 ^ 32 * k.
Proof.
  unfold to_int. exists (- ((z + 2 ^ 31) / 2 ^ 32)).
  pose proof (Z.div_mod (z + 2 ^ 31) (2 ^ 32) ltac:(lia)). lia.
Qed.

Lemma byte_high_bits x n : 0 <= x < 2 ^ n -> forall i, n <= i -> Z.testbit x i = false.
Proof.
  intros Hx i Hi. destruct (Z.eq_dec x 0) as [->|Hne]; [apply Z.bits_0|].
  apply Z.bits_above_log2; [lia|].
  assert (Z.log2 x < n); [|lia]. apply Z.log2_lt_pow2; lia.
Qed.

(** Below a multiple of 2^n, or-ing in [n] low bits is adding. *)
Lemma lor_low z x n :
  0 <= n -> 0 <= x < 2 ^ n -> Z.lor (z * 2 ^ n) x = z * 2 ^ n + x.
Proof.
  intros Hn Hx.
  assert (Z.land (z * 2 ^ n) x = 0) as Hland.
  { apply Z.bits_inj'. intros i Hi. rewrite Z.land_spec, Z.bits_0.
    destruct (Z.lt_ge_cases i n).
    - rewrite Z.mul_pow2_bits_low by lia. reflexivity.
    - rewrite (byte_high_bits x n Hx i) by lia. apply andb_false_r. }
  rewrite (Z.add_nocarry_lxor _ _ Hland). symmetry. apply Z.lxor_lor. exact Hland.
Qed.

Lemma to_int_small z : - 2 ^ 31 <= z < 2 ^ 31 -> to_int z = z.
Proof. intros Hz. unfold to_int. rewrite Z.mod_small by lia. lia. Qed.

Lemma pixel_closed_form a r g b :
  0 <= a < 256 -> 0 <= r < 256 -> 0 <= g < 256 -> 0 <= b < 256 ->
  pixel a r g b = a * 2 ^ 24 + r * 2 ^ 16 + g * 2 ^ 8 + b.
Proof.
  intros Ha Hr Hg Hb. unfold pixel, shl.
  rewrite !Z.shiftl_mul_pow2 by lia.
  destruct (to_int_congruent (a * 2 ^ 24)) as [ka ->].
  rewrite (to_int_small (r * 2 ^ 16)) by lia.
  rewrite (to_int_small (g * 2 ^ 8)) by lia.
  replace (a * 2 ^ 24 + 2 ^ 32 * ka) with ((a + 256 * ka) * 2 ^ 24) by lia.
  rewrite (lor_low (a + 256 * ka) (r * 2 ^ 16) 24) by lia.
  replace ((a + 256 * ka) * 2 ^ 24 + r * 2 ^ 16)
    with (((a + 256 * ka) * 2 ^ 8 + r) * 2 ^ 16) by lia.
  rewrite (lor_low _ (g * 2 ^ 8) 16) by lia.
  replace (((a + 256 * ka) * 2 ^ 8 + r) * 2 ^ 16 + g * 2 ^ 8)
    with ((((a + 256 * ka) * 2 ^ 8 + r) * 2 ^ 8 + g) * 2 ^ 8) by lia.
  rewrite (lor_low _ b 8) by lia.
  unfold to_u32. symmetry. apply (Z.mod_unique _ _ ka); lia.
Qed.

(** X12.  The pixel value packs its four bytes in the order alpha, red,
    green, blue from the most significant byte down, for all byte values
    (an alpha of 128 or more makes the shifted [int] negative, which the
    conversion to [uint32_t] undoes): the value is
    [a * 2^24 + r * 2^16 + g * 2^8 + b], and shifting and masking give
    each byte back. *)
Theorem pixel_packs_alpha_red_green_blue a r g b :
  0 <= a < 256 -> 0 <= r < 256 -> 0 <= g < 256 -> 0 <= b < 256 ->
  pixel a r g b = a * 2 ^ 24 + r * 2 ^ 16 + g * 2 ^ 8 + b
  /\ 0 <= pixel a r g b < 2 ^ 32
  /\ Z.shiftr (pixel a r g b) 24 = a
  /\ Z.land (Z.shiftr (pixel a r g b) 16) 255 = r
  /\ Z.land (Z.shiftr (pixel a r g b) 8) 255 = g
  /\ Z.land (pixel a r g b) 255 = b.
Proof.
  intros Ha Hr Hg Hb. rewrite (pixel_closed_form a r g b Ha Hr Hg Hb).
  change 255 with (Z.ones 8).
  rewrite !Z.land_ones, !Z.shiftr_div_pow2 by lia.
  change (2 ^ 32) with 4294967296. change (2 ^ 24) with 16777216.
  change (2 ^ 16) with 65536. change (2 ^ 8) with 256.
  repeat split; try lia; Z.div_mod_to_equations; lia.
Qed.

Lemma pixel_packs_alpha_red_green_blue_witness :
  pixel 200 17 255 3 = 200 * 2 ^ 24 + 17 * 2 ^ 16 + 255 * 2 ^ 8 + 3
  /\ Z.shiftr (pixel 200 17 255 3) 24 = 200
  /\ Z.land (Z.shiftr (pixel 200 17 255 3) 16) 255 = 17.
Proof.
  destruct (pixel_packs_alpha_red_green_blue 200 17 255 3)
    as (H1 & _ & H3 & H4 & _).
  - lia.
  - lia.
  - lia.
  - lia.
  - auto.
Defined.

(** Writing the next pixel in line. *)
Lemma write_next fb n v :
  (n < length fb)%nat ->
  write (painted n v fb) (Z.of_nat n) v = Some (painted (S n) v fb).
Proof.
  intros Hn. unfold write, painted.
  rewrite length_app, length_replicate, length_drop.
  replace ((0 <=? Z.of_nat n) && (Z.of_nat n <? Z.of_nat (n + (length fb - n))))
    with true
    by (symmetry; apply andb_true_iff; rewrite Z.leb_le, Z.ltb_lt; lia).
  rewrite Nat2Z.id. f_equal.
  destruct (lookup_lt_is_Some_2 fb n Hn) as [x Hx].
  rewrite insert_app_r_alt by (rewrite length_replicate; lia).
  rewrite length_replicate, Nat.sub_diag, (drop_S fb x n Hx).
  rewrite replicate_S_end, <- app_assoc. reflexivity.
Qed.

Lemma row_loop_paints width y a r g b fb todo : forall x n,
  y * width + x = Z.of_nat n ->
  (n + todo <= length fb)%nat ->
  row_loop width todo y x a r g b (painted n (pixel a r g b) fb)
  = Some (painted (n + todo) (pixel a r g b) fb).
Proof.
  induction todo as [|todo IH]; intros x n Hi Hfit.
  - rewrite Nat.add_0_r. reflexivity.
  - cbn [row_loop]. rewrite Hi, write_next by lia.
    rewrite (IH (x + 1) (S n)) by lia. f_equal. f_equal. lia.
Qed.

Lemma rows_loop_paints width a r g b fb todo : forall y n,
  0 <= width ->
  y * width = Z.of_nat n ->
  (n + todo * Z.to_nat width <= length fb)%nat ->
  rows_loop width todo y a r g b (painted n (pixel a r g b) fb)
  = Some (painted (n + todo * Z.to_nat width) (pixel a r g b) fb).
Proof.
  induction todo as [|todo IH]; intros y n Hwidth Hi Hfit.
  - cbn [Nat.mul]. rewrite Nat.add_0_r. reflexivity.
  - cbn [rows_loop]. cbn [Nat.mul] in Hfit.
    rewrite (row_loop_paints width y a r g b fb (Z.to_nat width) 0 n) by lia.
    rewrite (IH (y + 1) (n + Z.to_nat width)%nat) by lia.
    f_equal. f_equal. cbn [Nat.mul]. lia.
Qed.

Lemma fill_paints width height a r g b fb :
  0 <= width -> 0 <= height ->
  Z.of_nat (length fb) = width * height ->
  fill width height a r g b fb = Some (replicate (length fb) (pixel a r g b)).
Proof.
  intros Hwidth Hheight Hlen. unfold fill.
  assert (Z.to_nat height * Z.to_nat width = length fb)%nat as Hsize.
  { apply Nat2Z.inj. rewrite Nat2Z.inj_mul, !Z2Nat.id by lia. lia. }
  change fb with (painted 0 (pixel a r g b) fb) at 1.
  rewrite (rows_loop_paints width a r g b fb (Z.to_nat height) 0 0) by lia.
  cbn [Nat.add]. rewrite Hsize. unfold painted.
  rewrite drop_all, app_nil_r. reflexivity.
Qed.

(** X13.  One pass of the fill loops over the 800 x 600 buffer, whatever
    it held, writes inside the buffer only, writes every one of its 480000
    entries, and leaves the same value in all of them: alpha 0, red the
    colour byte of the frame, green 255, blue 0. *)
Theorem paint_frame_fills_every_pixel color fb :
  0 <= color < 256 ->
  Z.of_nat (length fb) = WIDTH * HEIGHT ->
  paint_frame color fb = Some (replicate (Z.to_nat 480000) (color * 65536 + 65280))
  /\ Z.shiftr (color * 65536 + 65280) 24 = 0
  /\ Z.land (Z.shiftr (color * 65536 + 65280) 16) 255 = color
  /\ Z.land (Z.shiftr (color * 65536 + 65280) 8) 255 = 255
  /\ Z.land (color * 65536 + 65280) 255 = 0.
Proof.
  intros Hcolor Hlen. unfold paint_frame. cbv zeta.
  rewrite (fill_paints WIDTH HEIGHT 0 color 255 0 fb)
    by (exact Hlen || (unfold WIDTH, HEIGHT; lia)).
  assert (pixel 0 color 255 0 = color * 65536 + 65280) as ->
    by (rewrite pixel_closed_form; lia).
  assert (length fb = Z.to_nat 480000) as ->
    by (apply Nat2Z.inj; rewrite Hlen, Z2Nat.id by lia; reflexivity).
  change 255 with (Z.ones 8).
  rewrite !Z.land_ones, !Z.shiftr_div_pow2 by lia.
  change (Z.ones 8) with 255.
  change (2 ^ 24) with 16777216. change (2 ^ 16) with 65536. change (2 ^ 8) with 256.
  repeat split; try reflexivity; Z.div_mod_to_equations; lia.
Qed.

Lemma paint_frame_fills_every_pixel_witness :
  paint_frame 128 (replicate (Z.to_nat 480000) 7)
  = Some (replicate (Z.to_nat 480000) (128 * 65536 + 65280)).
Proof.
  destruct (paint_frame_fills_every_pixel 128 (replicate (Z.to_nat 480000) 7))
    as (Hfill & _).
  - lia.
  - rewrite length_replicate, Z2Nat.id by lia. reflexivity.
  - exact Hfill.
Defined.

(** The loops on a 3 x 2 buffer, and on one that is an entry short. *)
Example fill_3_by_2 :
  fill 3 2 255 1 2 3 [10; 11; 12; 13; 14; 15]
  = Some [4278256131; 4278256131; 4278256131; 4278256131; 4278256131; 4278256131].
Proof. vm_compute. reflexivity. Qed.

Example fill_past_the_end :
  fill 3 2 255 1 2 3 [10; 11; 12; 13; 14] = None.
Proof. vm_compute. reflexivity. Qed.

End LegacyFacts.
